(** * Interest-Calculator backend: a shallow embedding and its properties

    The backend is a FastAPI application that forwards three numbers to a
    Google spreadsheet and reads two derived numbers back.  This file embeds

    - [app/models.py]                  (module [Models]),
    - [app/config.py]                  (module [Config]),
    - [app/services/google_sheets.py]  (module [Sheets]),
    - [app/main.py]                    (module [Main]),

    and states the properties of the written specification over them
    (modules [ModelsFacts], [SheetsFacts], [MainFacts]), using the
    vocabulary of [Notions] and the sample deployment [Demo].

    Conventions.  Python objects that are mutated in place ([self], the
    module-level [sheets_service]) are threaded as explicit state.  A Python
    exception does not roll the state back, so a computation returns its
    final state together with either a value or the raised exception.  The
    remote spreadsheet, the credential file and the transport live in a
    [World]; every call that leaves the process is recorded in its [log]. *)

From Stdlib Require Import String Ascii List ZArith QArith Bool Lia.
From Stdlib Require Import DecimalString.
Import ListNotations.

Local Open Scope string_scope.
Local Open Scope Z_scope.

(* ===================================================================== *)
(** * Python values used by the program *)
(* ===================================================================== *)

Module Py.

(** A Python [float].  Every finite binary64 value is a rational number, and
    the program only compares, parses, rounds and copies floats, so a finite
    value is kept as the rational it denotes.  The range and the precision of
    binary64 are not modelled: the type is a superset of the machine floats. *)
Inductive float : Type :=
| Fin (q : Q)
| PosInf
| NegInf
| NaN.

Definition of_Z (z : Z) : float := Fin (inject_Z z).

(** IEEE comparisons: every comparison with [NaN] is false. *)
Definition lt (a b : float) : bool :=
  match a, b with
  | NaN, _ | _, NaN => false
  | _, NegInf => false
  | NegInf, _ => true
  | PosInf, _ => false
  | Fin _, PosInf => true
  | Fin x, Fin y => negb (Qle_bool y x)
  end.

Definition le (a b : float) : bool :=
  match a, b with
  | NaN, _ | _, NaN => false
  | NegInf, _ => true
  | _, NegInf => false
  | _, PosInf => true
  | PosInf, Fin _ => false
  | Fin x, Fin y => Qle_bool x y
  end.

Definition gt (a b : float) : bool := lt b a.
Definition ge (a b : float) : bool := le b a.

(** Round half to even, to the nearest integer. *)
Definition round_half_even (q : Q) : Z :=
  let n := Qnum q in
  let d := Zpos (Qden q) in
  let up := (2 * n + d) / (2 * d) in
  if ((2 * n + d) mod (2 * d) =? 0) && negb (Z.even up) then up - 1 else up.

(** [round(x, ndigits)] for a non-negative [ndigits]: the decimal with
    [ndigits] places nearest to the exact value, ties to even.  (On binary64
    the result is the float nearest to that decimal, and a decimal text
    that ends in a 5 has usually been moved off the tie by parsing.) *)
Definition round (x : float) (ndigits : nat) : float :=
  match x with
  | Fin q =>
      let scale := Z.pow 10 (Z.of_nat ndigits) in
      Fin (Qred (Qmake (round_half_even (q * inject_Z scale)) 1
                 / inject_Z scale))
  | other => other
  end.

(* --------------------------------------------------------------------- *)
(** ** [float(s)] on a string *)

Definition is_space (c : ascii) : bool :=
  match nat_of_ascii c with
  | 9%nat | 10%nat | 11%nat | 12%nat | 13%nat | 32%nat => true
  | _ => false
  end.

Definition is_digit (c : ascii) : bool :=
  let n := nat_of_ascii c in (48 <=? n)%nat && (n <=? 57)%nat.

Definition digit_val (c : ascii) : Z := Z.of_nat (nat_of_ascii c) - 48.

Definition lower (c : ascii) : ascii :=
  let n := nat_of_ascii c in
  if (65 <=? n)%nat && (n <=? 90)%nat then ascii_of_nat (n + 32) else c.

Fixpoint lstrip (s : list ascii) : list ascii :=
  match s with
  | c :: s' => if is_space c then lstrip s' else s
  | [] => []
  end.

Definition strip (s : list ascii) : list ascii :=
  rev (lstrip (rev (lstrip s))).

(** The rest of a [digitpart] after its first digit:
    [(["_"] digit)*].  Returns the accumulated value, the number of digits
    read and the unread input. *)
Fixpoint digits_tail (s : list ascii) (acc : Z) (n : nat)
  : Z * nat * list ascii :=
  match s with
  | c :: s' =>
      if is_digit c then digits_tail s' (10 * acc + digit_val c) (S n)
      else if Ascii.eqb c "_" then
        match s' with
        | d :: s'' =>
            if is_digit d then digits_tail s'' (10 * acc + digit_val d) (S n)
            else (acc, n, s)
        | [] => (acc, n, s)
        end
      else (acc, n, s)
  | [] => (acc, n, s)
  end.

(** [digitpart ::= digit (["_"] digit)*], continuing the value [acc]. *)
Definition digitpart (s : list ascii) (acc : Z)
  : option (Z * nat * list ascii) :=
  match s with
  | c :: s' =>
      if is_digit c then Some (digits_tail s' (10 * acc + digit_val c) 1%nat)
      else None
  | [] => None
  end.

(** [sign ::= "+" | "-"]; the boolean is true for a minus sign. *)
Definition sign (s : list ascii) : bool * list ascii :=
  match s with
  | c :: s' =>
      if Ascii.eqb c "-" then (true, s')
      else if Ascii.eqb c "+" then (false, s')
      else (false, s)
  | [] => (false, s)
  end.

(** [number ::= [digitpart] "." digitpart | digitpart ["."]]: the digits
    as one integer, and how many of them follow the point. *)
Definition number (s : list ascii) : option (Z * nat * list ascii) :=
  match digitpart s 0 with
  | Some (i, _, rest) =>
      match rest with
      | c :: rest' =>
          if Ascii.eqb c "." then
            match digitpart rest' i with
            | Some (m, k, rest'') => Some (m, k, rest'')
            | None => Some (i, 0%nat, rest')
            end
          else Some (i, 0%nat, rest)
      | [] => Some (i, 0%nat, rest)
      end
  | None =>
      match s with
      | c :: rest' =>
          if Ascii.eqb c "." then digitpart rest' 0 else None
      | [] => None
      end
  end.

(** [exponent ::= ("e" | "E") [sign] digitpart]; absent means 0.  [None]
    when an exponent marker is not followed by a well-formed exponent. *)
Definition exponent (s : list ascii) : option (Z * list ascii) :=
  match s with
  | c :: s' =>
      if Ascii.eqb (lower c) "e" then
        let '(neg, s'') := sign s' in
        match digitpart s'' 0 with
        | Some (e, _, rest) => Some (if neg then - e else e, rest)
        | None => None
        end
      else Some (0, s)
  | [] => Some (0, s)
  end.

Definition pow10 (e : Z) : Q :=
  if 0 <=? e then inject_Z (10 ^ e) else Qmake 1 (Z.to_pos (10 ^ (- e))).

Definition apply_sign (neg : bool) (x : float) : float :=
  if neg then
    match x with
    | Fin q => Fin (Qred (- q))
    | PosInf => NegInf
    | NegInf => PosInf
    | NaN => NaN
    end
  else x.

Definition absfloatvalue (s : list ascii) : option float :=
  let word := string_of_list_ascii (map lower s) in
  if String.eqb word "inf" || String.eqb word "infinity" then Some PosInf
  else if String.eqb word "nan" then Some NaN
  else
    match number s with
    | Some (m, k, rest) =>
        match exponent rest with
        | Some (e, []) =>
            Some (Fin (Qred (inject_Z m * pow10 (e - Z.of_nat k))))
        | _ => None
        end
    | None => None
    end.

(** [float(s)]: [None] stands for the [ValueError] Python raises.  Only
    ASCII digits and ASCII white space are recognised. *)
Definition float_of_str (s : string) : option float :=
  let '(neg, body) := sign (strip (list_ascii_of_string s)) in
  option_map (apply_sign neg) (absfloatvalue body).

(** Truth value of an optional string: [None] and [""] are false. *)
Definition truthy (s : option string) : bool :=
  match s with
  | Some EmptyString | None => false
  | Some _ => true
  end.

(** [", ".join(l)] and friends. *)
Fixpoint join (sep : string) (l : list string) : string :=
  match l with
  | [] => ""
  | [x] => x
  | x :: rest => x ++ sep ++ join sep rest
  end.

(** [str(n)] for an integer. *)
Definition str_of_Z (z : Z) : string := NilEmpty.string_of_int (Z.to_int z).

(** [x in l] for a list of strings. *)
Definition contains (l : list string) (x : string) : bool :=
  existsb (String.eqb x) l.


End Py.

(* ===================================================================== *)
(** * app/models.py *)
(* ===================================================================== *)

Module Models.

(** What a failed field reports: the constraint of its [Field(...)] that
    does not hold, or the [ValueError] of a [field_validator]. *)
Inductive error_type : Type :=
| greater_than (bound : Py.float)
| less_than_equal (bound : Py.float)
| value_error (msg : string).

(** One line of a validation error: the field it is about and the reason. *)
Record error_item : Type := { loc : string; err : error_type }.

(** The numeric bounds of a [Field(...)]. *)
Record FieldInfo : Type := { gt : option Py.float; le : option Py.float }.

Definition check_le (fi : FieldInfo) (v : Py.float) : option error_type :=
  match le fi with
  | Some b => if Py.le v b then None else Some (less_than_equal b)
  | None => None
  end.

Definition check_gt (fi : FieldInfo) (v : Py.float) : option error_type :=
  match gt fi with
  | Some b => if Py.gt v b then None else Some (greater_than b)
  | None => None
  end.

(** The bounds of a field are checked before its validators run. *)
Definition check_constraints (fi : FieldInfo) (v : Py.float)
  : option error_type :=
  match check_le fi v with
  | Some e => Some e
  | None => check_gt fi v
  end.

Record CalculateRequest : Type :=
  { principal : Py.float; rate : Py.float; time : Py.float }.

Definition principal_field : FieldInfo :=
  {| gt := Some (Py.of_Z 0); le := None |}.
Definition rate_field : FieldInfo :=
  {| gt := Some (Py.of_Z 0); le := Some (Py.of_Z 100) |}.
Definition time_field : FieldInfo :=
  {| gt := Some (Py.of_Z 0); le := None |}.

(** [validate_positive(cls, v, info)]; [inl msg] is [raise ValueError(msg)]. *)
Definition validate_positive (v : Py.float) (field_name : string)
  : string + Py.float :=
  if Py.le v (Py.of_Z 0) then inl (field_name ++ " must be greater than 0")
  else inr v.

(** [validate_rate(cls, v)]. *)
Definition validate_rate (v : Py.float) : string + Py.float :=
  if Py.gt v (Py.of_Z 100) then inl "Rate cannot exceed 100%" else inr v.

(** A field: its bounds, then its validators in the order they are
    declared, each receiving the value the previous one returned. *)
Definition run_field (name : string) (fi : FieldInfo)
    (validators : list (Py.float -> string + Py.float)) (v : Py.float)
  : error_item + Py.float :=
  match check_constraints fi v with
  | Some e => inl {| loc := name; err := e |}
  | None =>
      fold_left
        (fun acc f =>
           match acc with
           | inr x =>
               match f x with
               | inl msg => inl {| loc := name; err := value_error msg |}
               | inr y => inr y
               end
           | inl e => inl e
           end)
        validators (inr v)
  end.

Definition validate_principal : Py.float -> error_item + Py.float :=
  run_field "principal" principal_field
    [fun v => validate_positive v "principal"].

Definition validate_rate_field : Py.float -> error_item + Py.float :=
  run_field "rate" rate_field
    [fun v => validate_positive v "rate"; validate_rate].

Definition validate_time : Py.float -> error_item + Py.float :=
  run_field "time" time_field
    [fun v => validate_positive v "time"].

Definition errors_of {A} (r : error_item + A) : list error_item :=
  match r with inl e => [e] | inr _ => [] end.

(** Building a [CalculateRequest] from three numbers: every field is
    validated and the errors of all failing fields are reported together. *)
Definition model_validate (p r t : Py.float)
  : list error_item + CalculateRequest :=
  let vp := validate_principal p in
  let vr := validate_rate_field r in
  let vt := validate_time t in
  match vp, vr, vt with
  | inr p', inr r', inr t' =>
      inr {| principal := p'; rate := r'; time := t' |}
  | _, _, _ => inl (errors_of vp ++ errors_of vr ++ errors_of vt)%list
  end.

(** The error list has a line about field [name]. *)
Definition names_field (errs : list error_item) (name : string) : Prop :=
  exists it, In it errs /\ loc it = name.

(** The three echoed fields are [Optional[float]]; their names carry a
    prefix here because [CalculateRequest] owns the plain ones. *)
Record CalculateResponse : Type :=
  { simpleInterest : Py.float;
    compoundInterest : Py.float;
    resp_principal : option Py.float;
    resp_rate : option Py.float;
    resp_time : option Py.float }.

End Models.

(* ===================================================================== *)
(** * Exceptions and stateful computations *)
(* ===================================================================== *)

(** The exception classes the program raises or catches. *)
Inductive exn : Type :=
| Exception (msg : string)
| ValueError (msg : string)
| FileNotFoundError (msg : string)
| SpreadsheetNotFound
| WorksheetNotFound (title : string)
| APIError (msg : string)
| HTTPException (status_code : Z) (detail : string).

(** [str(e)]. *)
Definition str (e : exn) : string :=
  match e with
  | Exception m | ValueError m | FileNotFoundError m | APIError m => m
  | SpreadsheetNotFound => ""
  | WorksheetNotFound t => t
  | HTTPException c d => Py.str_of_Z c ++ ": " ++ d
  end.

Inductive outcome (A : Type) : Type :=
| Return (a : A)
| Raise (e : exn).
Arguments Return {A} a.
Arguments Raise {A} e.

(** A computation over a mutable state [S]: the state survives a raise. *)
Definition M (S A : Type) : Type := S -> outcome A * S.

Definition ret {S A} (a : A) : M S A := fun s => (Return a, s).

Definition bind {S A B} (m : M S A) (k : A -> M S B) : M S B :=
  fun s =>
    match m s with
    | (Return a, s') => k a s'
    | (Raise e, s') => (Raise e, s')
    end.

Definition raise {S A} (e : exn) : M S A := fun s => (Raise e, s).

(** [try: m  except ... as e: handler e]. *)
Definition try_except {S A} (m : M S A) (handler : exn -> M S A) : M S A :=
  fun s =>
    match m s with
    | (Return a, s') => (Return a, s')
    | (Raise e, s') => handler e s'
    end.

Definition get {S} : M S S := fun s => (Return s, s).
Definition put {S} (s : S) : M S unit := fun _ => (Return tt, s).

Notation "x <- c ;; k" := (bind c (fun x => k))
  (at level 61, c at next level, right associativity).
Notation "c ;;; k" := (bind c (fun _ => k))
  (at level 61, right associativity).

(* ===================================================================== *)
(** * The world outside the process *)
(* ===================================================================== *)

(** What the process does that can be observed from outside, in order. *)
Inductive event : Type :=
| LoadCredentials (path : string)
| OpenByKey (key : string)
| GetWorksheet (title : string)
| UpdateCell (sheet cell : string) (v : Py.float)
| ReadCell (sheet cell : string)
| ListWorksheets
| Sleep (seconds : Q).

(** The calls that go to the spreadsheet service. *)
Definition is_remote (e : event) : bool :=
  match e with
  | LoadCredentials _ | Sleep _ => false
  | _ => true
  end.

(** The values typed into cells, newest first: sheet, cell, value. *)
Definition entries : Type := list (string * string * Py.float).

(** The file system, the one remote spreadsheet and the transport.

    - [key_file_error]: [Some msg] when the credential file is not a usable
      service-account key;
    - [doc_key], [doc_shared]: the identifier of the spreadsheet and whether
      the service account may open it;
    - [titles]: its worksheets; [entered]: what has been written to it;
    - [display]: the text each cell shows, as the spreadsheet's own formulas
      and formats derive it from the entered values (opaque to the program);
    - [faults]: the outcome of the coming calls to the service, in order;
      [Some msg] is a failure of the call, an exhausted list is success;
    - [log]: the events so far, oldest first. *)
Record World : Type :=
  { path_exists : string -> bool;
    resolve : string -> string;
    key_file_error : option string;
    doc_key : string;
    doc_shared : bool;
    titles : list string;
    entered : entries;
    display : entries -> string -> string -> option string;
    faults : list (option string);
    log : list event }.

Definition set_log (w : World) (l : list event) : World :=
  {| path_exists := path_exists w; resolve := resolve w;
     key_file_error := key_file_error w;
     doc_key := doc_key w; doc_shared := doc_shared w;
     titles := titles w; entered := entered w; display := display w;
     faults := faults w; log := l |}.

Definition set_faults (w : World) (f : list (option string)) : World :=
  {| path_exists := path_exists w; resolve := resolve w;
     key_file_error := key_file_error w;
     doc_key := doc_key w; doc_shared := doc_shared w;
     titles := titles w; entered := entered w; display := display w;
     faults := f; log := log w |}.

Definition set_entered (w : World) (en : entries) : World :=
  {| path_exists := path_exists w; resolve := resolve w;
     key_file_error := key_file_error w;
     doc_key := doc_key w; doc_shared := doc_shared w;
     titles := titles w; entered := en; display := display w;
     faults := faults w; log := log w |}.

(** Handles of the client libraries. *)
Inductive Credentials : Type := MkCredentials (path : string).
Inductive Client : Type := MkClient (credentials : Credentials).
Inductive Spreadsheet : Type := MkSpreadsheet (key : string).
Inductive Worksheet : Type := MkWorksheet (title : string).

Definition ws_title (ws : Worksheet) : string :=
  match ws with MkWorksheet t => t end.

Module Remote.

Definition record (e : event) : M World unit :=
  fun w => (Return tt, set_log w (log w ++ [e])).

(** One call to the service: it is logged, and it fails when the transport
    says so. *)
Definition call (e : event) : M World unit :=
  fun w =>
    let w' := set_faults (set_log w (log w ++ [e])) (tl (faults w)) in
    match faults w with
    | Some msg :: _ => (Raise (APIError msg), w')
    | _ => (Return tt, w')
    end.

(** [Credentials.from_service_account_file(path, scopes=...)]. *)
Definition from_service_account_file (path : string) : M World Credentials :=
  record (LoadCredentials path) ;;;
  w <- get ;;
  if negb (path_exists w path) then
    raise (FileNotFoundError
             ("[Errno 2] No such file or directory: '" ++ path ++ "'"))
  else
    match key_file_error w with
    | Some msg => raise (ValueError msg)
    | None => ret (MkCredentials path)
    end.

(** [gspread.authorize(credentials)] builds the client object; the
    service is first contacted by [open_by_key]. *)
Definition authorize (c : Credentials) : Client := MkClient c.

(** [client.open_by_key(key)]. *)
Definition open_by_key (c : Client) (key : string) : M World Spreadsheet :=
  call (OpenByKey key) ;;;
  w <- get ;;
  if doc_shared w && String.eqb key (doc_key w) then ret (MkSpreadsheet key)
  else raise SpreadsheetNotFound.

(** [spreadsheet.worksheet(title)]. *)
Definition worksheet (ss : Spreadsheet) (title : string) : M World Worksheet :=
  call (GetWorksheet title) ;;;
  w <- get ;;
  if Py.contains (titles w) title then ret (MkWorksheet title)
  else raise (WorksheetNotFound title).

(** [spreadsheet.worksheets()]. *)
Definition worksheets (ss : Spreadsheet) : M World (list Worksheet) :=
  call ListWorksheets ;;;
  w <- get ;;
  ret (map MkWorksheet (titles w)).

(** [worksheet.update_acell(cell, value)]. *)
Definition update_acell (ws : Worksheet) (cell : string) (v : Py.float)
  : M World unit :=
  call (UpdateCell (ws_title ws) cell v) ;;;
  w <- get ;;
  put (set_entered w ((ws_title ws, cell, v) :: entered w)).

(** [worksheet.acell(cell).value]. *)
Definition acell_value (ws : Worksheet) (cell : string)
  : M World (option string) :=
  call (ReadCell (ws_title ws) cell) ;;;
  w <- get ;;
  ret (display w (entered w) (ws_title ws) cell).

(** [time.sleep(seconds)]. *)
Definition sleep (seconds : Q) : M World unit := record (Sleep seconds).

End Remote.

(* ===================================================================== *)
(** * app/config.py *)
(* ===================================================================== *)

Module Config.

Record Settings : Type :=
  { GOOGLE_SHEET_ID : string;
    GOOGLE_CREDENTIALS_PATH : string;
    API_HOST : string;
    API_PORT : Z;
    ALLOWED_ORIGINS : list string }.

Definition INPUT_SHEET_NAME : string := "Input".
Definition CALC_SHEET_NAME : string := "Calc".
Definition OUTPUT_SHEET_NAME : string := "Output".
Definition INPUT_PRINCIPAL_CELL : string := "B2".
Definition INPUT_RATE_CELL : string := "B3".
Definition INPUT_TIME_CELL : string := "B4".
Definition OUTPUT_SI_CELL : string := "B2".
Definition OUTPUT_CI_CELL : string := "B3".

(** [Settings.validate()]. *)
Definition validate (st : Settings) : M World unit :=
  if String.eqb (GOOGLE_SHEET_ID st) "" then
    raise (ValueError "GOOGLE_SHEET_ID environment variable is not set")
  else
    w <- get ;;
    if negb (path_exists w (GOOGLE_CREDENTIALS_PATH st)) then
      raise (ValueError ("Google credentials file not found at: "
                         ++ GOOGLE_CREDENTIALS_PATH st))
    else ret tt.

(** [Settings.get_credentials_path()]. *)
Definition get_credentials_path (st : Settings) : M World string :=
  w <- get ;;
  ret (resolve w (GOOGLE_CREDENTIALS_PATH st)).

End Config.

(* ===================================================================== *)
(** * app/services/google_sheets.py *)
(* ===================================================================== *)

Module Sheets.

Record GoogleSheetsService : Type :=
  { credentials_path : string;
    sheet_id : string;
    client : option Client;
    spreadsheet : option Spreadsheet }.

(** A method runs on its object and on the world. *)
Definition Obj : Type := (GoogleSheetsService * World)%type.

Definition self : M Obj GoogleSheetsService := fun s => (Return (fst s), s).

Definition remote {A} (m : M World A) : M Obj A :=
  fun s =>
    let '(r, w') := m (snd s) in (r, (fst s, w')).

(** [self.client = c]. *)
Definition set_client (c : Client) : M Obj unit :=
  fun s =>
    let g := fst s in
    (Return tt,
     ({| credentials_path := credentials_path g; sheet_id := sheet_id g;
         client := Some c; spreadsheet := spreadsheet g |}, snd s)).

(** [self.spreadsheet = ss]. *)
Definition set_spreadsheet (ss : Spreadsheet) : M Obj unit :=
  fun s =>
    let g := fst s in
    (Return tt,
     ({| credentials_path := credentials_path g; sheet_id := sheet_id g;
         client := client g; spreadsheet := Some ss |}, snd s)).

Definition nl : string := String (ascii_of_nat 10) "".

(** [GoogleSheetsService.__init__(credentials_path, sheet_id)]. *)
Definition init (credentials_path sheet_id : string)
  : M World GoogleSheetsService :=
  if String.eqb sheet_id "" then
    raise (ValueError "Sheet ID cannot be empty")
  else
    w <- get ;;
    if negb (path_exists w credentials_path) then
      raise (FileNotFoundError
               ("Credentials file not found: " ++ credentials_path))
    else
      ret {| credentials_path := credentials_path; sheet_id := sheet_id;
             client := None; spreadsheet := None |}.

(** [authenticate(self)]. *)
Definition authenticate : M Obj unit :=
  g <- self ;;
  try_except
    (credentials <- remote (Remote.from_service_account_file
                              (credentials_path g)) ;;
     let c := Remote.authorize credentials in
     set_client c ;;;
     ss <- remote (Remote.open_by_key c (sheet_id g)) ;;
     set_spreadsheet ss)
    (fun e =>
       match e with
       | FileNotFoundError _ =>
           raise (Exception ("Credentials file not found: " ++ str e))
       | SpreadsheetNotFound =>
           raise (Exception
                    ("Spreadsheet not found. Check if:" ++ nl
                     ++ "1. Sheet ID is correct: " ++ sheet_id g ++ nl
                     ++ "2. Sheet is shared with service account email"))
       | _ => raise (Exception ("Authentication failed: " ++ str e))
       end).

Definition not_authenticated : exn :=
  Exception "Not authenticated. Call authenticate() first.".

(** [write_inputs(self, principal, rate, time, input_sheet_name,
    principal_cell, rate_cell, time_cell)]. *)
Definition write_inputs (principal rate time : Py.float)
    (input_sheet_name principal_cell rate_cell time_cell : string)
  : M Obj unit :=
  g <- self ;;
  match spreadsheet g with
  | None => raise not_authenticated
  | Some ss =>
      try_except
        (input_sheet <- remote (Remote.worksheet ss input_sheet_name) ;;
         remote (Remote.update_acell input_sheet principal_cell principal) ;;;
         remote (Remote.update_acell input_sheet rate_cell rate) ;;;
         remote (Remote.update_acell input_sheet time_cell time) ;;;
         remote (Remote.sleep (1 # 2)))
        (fun e =>
           match e with
           | WorksheetNotFound _ =>
               raise (Exception
                        ("Worksheet '" ++ input_sheet_name ++ "' not found. "
                         ++ "Please ensure the sheet exists."))
           | _ => raise (Exception ("Failed to write inputs: " ++ str e))
           end)
  end.

(** The dictionary [read_outputs] returns. *)
Record Results : Type :=
  { simpleInterest : Py.float; compoundInterest : Py.float }.

(** [str(raw)] inside an f-string. *)
Definition show (raw : option string) : string :=
  match raw with Some s => s | None => "None" end.

(** [float(raw) if raw else 0.0]. *)
Definition float_or_zero {S} (raw : option string) : M S Py.float :=
  if Py.truthy raw then
    match Py.float_of_str (show raw) with
    | Some v => ret v
    | None =>
        raise (ValueError
                 ("could not convert string to float: '" ++ show raw ++ "'"))
    end
  else ret (Py.of_Z 0).

(** The inner [try: ... except (ValueError, TypeError): raise Exception]. *)
Definition parse_cell {S} (what cell : string) (raw : option string)
  : M S Py.float :=
  try_except (float_or_zero raw)
    (fun e =>
       match e with
       | ValueError _ =>
           raise (Exception ("Invalid " ++ what ++ " value in " ++ cell
                             ++ ": " ++ show raw))
       | _ => raise e
       end).

(** [read_outputs(self, output_sheet_name, si_cell, ci_cell)]. *)
Definition read_outputs (output_sheet_name si_cell ci_cell : string)
  : M Obj Results :=
  g <- self ;;
  match spreadsheet g with
  | None => raise not_authenticated
  | Some ss =>
      try_except
        (output_sheet <- remote (Remote.worksheet ss output_sheet_name) ;;
         simple_interest_raw <- remote (Remote.acell_value output_sheet si_cell) ;;
         compound_interest_raw <- remote (Remote.acell_value output_sheet ci_cell) ;;
         simple_interest <- parse_cell "simple interest" si_cell
                              simple_interest_raw ;;
         compound_interest <- parse_cell "compound interest" ci_cell
                                compound_interest_raw ;;
         ret {| simpleInterest := simple_interest;
                compoundInterest := compound_interest |})
        (fun e =>
           match e with
           | WorksheetNotFound _ =>
               raise (Exception
                        ("Worksheet '" ++ output_sheet_name ++ "' not found. "
                         ++ "Please ensure the sheet exists."))
           | _ => raise (Exception ("Failed to read outputs: " ++ str e))
           end)
  end.

(** [calculate_interest(self, principal, rate, time)]. *)
Definition calculate_interest (principal rate time : Py.float)
  : M Obj Results :=
  g <- self ;;
  match client g with
  | None => authenticate
  | Some _ => ret tt
  end ;;;
  write_inputs principal rate time "Input" "B2" "B3" "B4" ;;;
  read_outputs "Output" "B2" "B3".

Definition required_sheets : list string := ["Input"; "Calc"; "Output"].

(** [verify_sheet_structure(self)]. *)
Definition verify_sheet_structure : M Obj (bool * string) :=
  g <- self ;;
  match spreadsheet g with
  | None => ret (false, "Not authenticated")
  | Some ss =>
      wss <- remote (Remote.worksheets ss) ;;
      let existing_sheets := map ws_title wss in
      let missing_sheets :=
        filter (fun s => negb (Py.contains existing_sheets s))
               required_sheets in
      match missing_sheets with
      | _ :: _ =>
          ret (false,
               "Missing required sheets: " ++ Py.join ", " missing_sheets)
      | [] => ret (true, "Sheet structure verified successfully")
      end
  end.

End Sheets.

(* ===================================================================== *)
(** * app/main.py *)
(* ===================================================================== *)

Module Main.

(** The module-level [sheets_service] and the world.  The object bound to
    [sheets_service] is the one every caller of [get_sheets_service]
    receives, so a method called on that result runs on this slot. *)
Record App : Type :=
  { sheets_service : option Sheets.GoogleSheetsService;
    world : World }.

(** [sheets_service = None] at import time. *)
Definition start (w : World) : App :=
  {| sheets_service := None; world := w |}.

Definition in_world {A} (m : M World A) : M App A :=
  fun app =>
    let '(r, w') := m (world app) in
    (r, {| sheets_service := sheets_service app; world := w' |}).

(** [sheets_service = g]. *)
Definition set_sheets_service (g : Sheets.GoogleSheetsService) : M App unit :=
  fun app => (Return tt, {| sheets_service := Some g; world := world app |}).

(** A method call on the object bound to [sheets_service]. *)
Definition on_service {A} (m : M Sheets.Obj A) : M App A :=
  fun app =>
    match sheets_service app with
    | Some g =>
        let '(r, (g', w')) := m (g, world app) in
        (r, {| sheets_service := Some g'; world := w' |})
    | None =>
        (Raise (Exception "'NoneType' object has no attribute"), app)
    end.

(** A response: its status code and its JSON body. *)
Inductive body : Type :=
| Model (r : Models.CalculateResponse)
| Object (fields : list (string * string)).

Record JSONResponse : Type := { status_code : Z; content : body }.

(** The keys of a JSON body. *)
Definition keys (b : body) : list string :=
  match b with
  | Model _ =>
      ["simpleInterest"; "compoundInterest"; "principal"; "rate"; "time"]
  | Object fields => map fst fields
  end.

Definition HTTP_200_OK : Z := 200.
Definition HTTP_400_BAD_REQUEST : Z := 400.
Definition HTTP_500_INTERNAL_SERVER_ERROR : Z := 500.

Section WithSettings.

Variable settings : Config.Settings.

(** [get_sheets_service()]. *)
Definition get_sheets_service : M App (option Sheets.GoogleSheetsService) :=
  app <- get ;;
  match sheets_service app with
  | None =>
      try_except
        (path <- in_world (Config.get_credentials_path settings) ;;
         g <- in_world (Sheets.init path (Config.GOOGLE_SHEET_ID settings)) ;;
         set_sheets_service g ;;;
         on_service Sheets.authenticate)
        (fun e =>
           raise (HTTPException HTTP_500_INTERNAL_SERVER_ERROR
                    ("Failed to initialize Google Sheets service: "
                     ++ str e)))
  | Some _ => ret tt
  end ;;;
  app' <- get ;;
  ret (sheets_service app').

(** [lifespan(app)] up to its [yield]: what runs before the server accepts
    a request.  The [except] clause re-raises. *)
Definition lifespan : M App unit :=
  try_except
    (in_world (Config.validate settings) ;;;
     get_sheets_service ;;;
     ret tt)
    (fun e => raise e).

(** The endpoint [calculate_interest(request)] of [POST /calculate]. *)
Definition calculate_interest (request : Models.CalculateRequest)
  : M App Models.CalculateResponse :=
  try_except
    (get_sheets_service ;;;
     results <- on_service
                  (Sheets.calculate_interest
                     (Models.principal request)
                     (Models.rate request)
                     (Models.time request)) ;;
     ret {| Models.simpleInterest :=
              Py.round (Sheets.simpleInterest results) 2;
            Models.compoundInterest :=
              Py.round (Sheets.compoundInterest results) 2;
            Models.resp_principal := Some (Models.principal request);
            Models.resp_rate := Some (Models.rate request);
            Models.resp_time := Some (Models.time request) |})
    (fun e =>
       match e with
       | ValueError _ =>
           raise (HTTPException HTTP_400_BAD_REQUEST (str e))
       | _ =>
           raise (HTTPException HTTP_500_INTERNAL_SERVER_ERROR
                    ("Calculation failed: " ++ str e))
       end).

(** [http_exception_handler(request, exc)] for an
    [HTTPException(status_code, detail)]. *)
Definition http_exception_handler (status_code : Z) (detail : string)
  : JSONResponse :=
  {| status_code := status_code; content := Object [("error", detail)] |}.

(** [general_exception_handler(request, exc)]. *)
Definition general_exception_handler (exc : exn) : JSONResponse :=
  {| status_code := HTTP_500_INTERNAL_SERVER_ERROR;
     content := Object [("error", "Internal server error");
                        ("detail", str exc)] |}.

(** A validated request served by the endpoint, with the registered
    exception handlers applied to what it raises. *)
Definition post_calculate (request : Models.CalculateRequest) (app : App)
  : JSONResponse * App :=
  match calculate_interest request app with
  | (Return r, app') =>
      ({| status_code := HTTP_200_OK; content := Model r |}, app')
  | (Raise (HTTPException c d), app') => (http_exception_handler c d, app')
  | (Raise e, app') => (general_exception_handler e, app')
  end.

End WithSettings.

End Main.

(* ===================================================================== *)
(** * app/main.py: the other endpoints *)
(* ===================================================================== *)

Module Routes.
Import Main.

Definition HTTP_503_SERVICE_UNAVAILABLE : Z := 503.

(** [root()]. *)
Definition root : list (string * string) :=
  [("message", "Interest Calculator API"); ("version", "1.0.0");
   ("docs", "/docs"); ("health", "/health")].

Section WithSettings.

Variable settings : Config.Settings.

(** The body of an unhealthy answer. *)
Definition unhealthy (detail : string) : JSONResponse :=
  {| status_code := HTTP_503_SERVICE_UNAVAILABLE;
     content := Object [("status", "unhealthy"); ("version", "1.0.0");
                        ("detail", detail)] |}.

(** [health_check()].  The [HealthResponse] it returns on success is
    written as the JSON object the framework sends for it, status 200. *)
Definition health_check : M App JSONResponse :=
  try_except
    (get_sheets_service settings ;;;
     verdict <- on_service Sheets.verify_sheet_structure ;;
     let '(sheet_ok, sheet_msg) := verdict in
     if negb sheet_ok then ret (unhealthy sheet_msg)
     else ret {| status_code := HTTP_200_OK;
                 content := Object [("status", "healthy");
                                    ("version", "1.0.0")] |})
    (fun e => ret (unhealthy (str e))).

(** [verify_sheet()]: the dictionary it returns, or what it raises. *)
Definition verify_sheet : M App (list (string * string)) :=
  try_except
    (get_sheets_service settings ;;;
     verdict <- on_service Sheets.verify_sheet_structure ;;
     let '(success, message) := verdict in
     if success then ret [("status", "success"); ("message", message)]
     else raise (HTTPException HTTP_400_BAD_REQUEST message))
    (fun e =>
       match e with
       | HTTPException _ _ => raise e
       | _ => raise (HTTPException HTTP_500_INTERNAL_SERVER_ERROR (str e))
       end).

(** [GET /verify], with the registered exception handlers applied to what
    the endpoint raises. *)
Definition get_verify (app : App) : JSONResponse * App :=
  match verify_sheet app with
  | (Return fields, app') =>
      ({| status_code := HTTP_200_OK; content := Object fields |}, app')
  | (Raise (HTTPException c d), app') => (http_exception_handler c d, app')
  | (Raise e, app') => (general_exception_handler e, app')
  end.

End WithSettings.

End Routes.

(* ===================================================================== *)
(** * A concrete deployment, used to run the program *)
(* ===================================================================== *)

Module Demo.

Definition settings : Config.Settings :=
  {| Config.GOOGLE_SHEET_ID := "sheet-123";
     Config.GOOGLE_CREDENTIALS_PATH := "credentials.json";
     Config.API_HOST := "0.0.0.0";
     Config.API_PORT := 8000;
     Config.ALLOWED_ORIGINS :=
       ["http://localhost:3000"; "http://127.0.0.1:3000"] |}.

(** The newest value entered in a cell. *)
Fixpoint entered_value (en : entries) (sheet cell : string)
  : option Py.float :=
  match en with
  | (s, c, v) :: rest =>
      if String.eqb s sheet && String.eqb c cell then Some v
      else entered_value rest sheet cell
  | [] => None
  end.

(** A spreadsheet whose Output sheet shows the interest on 10000 at 5.5%
    over 3 years once these inputs have been entered, and is empty
    otherwise. *)
Definition formulas (en : entries) (sheet cell : string) : option string :=
  match entered_value en "Input" "B2", entered_value en "Input" "B3",
        entered_value en "Input" "B4" with
  | Some (Py.Fin p), Some (Py.Fin r), Some (Py.Fin t) =>
      if Qeq_bool p 10000 && Qeq_bool r (11 # 2) && Qeq_bool t 3
         && String.eqb sheet "Output" then
        if String.eqb cell "B2" then Some "1650"
        else if String.eqb cell "B3" then Some "1742.41375"
        else None
      else None
  | _, _, _ => None
  end.

Definition world : World :=
  {| path_exists := fun p => String.eqb p "credentials.json"
                             || String.eqb p "/srv/app/credentials.json";
     resolve := fun p => "/srv/app/" ++ p;
     key_file_error := None;
     doc_key := "sheet-123";
     doc_shared := true;
     titles := ["Input"; "Calc"; "Output"];
     entered := [];
     display := formulas;
     faults := [];
     log := [] |}.

(** The same deployment with other worksheets. *)
Definition with_titles (ts : list string) : World :=
  {| path_exists := path_exists world; resolve := resolve world;
     key_file_error := None; doc_key := doc_key world; doc_shared := true;
     titles := ts; entered := []; display := formulas;
     faults := []; log := [] |}.


(** The same deployment with a spreadsheet that is not shared with the
    service account. *)
Definition unshared : World :=
  {| path_exists := path_exists world; resolve := resolve world;
     key_file_error := None; doc_key := doc_key world; doc_shared := false;
     titles := titles world; entered := []; display := formulas;
     faults := []; log := [] |}.

(** A service object as [__init__] leaves it. *)
Definition fresh : Sheets.GoogleSheetsService :=
  {| Sheets.credentials_path := "/srv/app/credentials.json";
     Sheets.sheet_id := "sheet-123";
     Sheets.client := None;
     Sheets.spreadsheet := None |}.

(** A service object after a successful [authenticate]. *)
Definition connected : Sheets.GoogleSheetsService :=
  {| Sheets.credentials_path := "/srv/app/credentials.json";
     Sheets.sheet_id := "sheet-123";
     Sheets.client :=
       Some (MkClient (MkCredentials "/srv/app/credentials.json"));
     Sheets.spreadsheet := Some (MkSpreadsheet "sheet-123") |}.

Definition request : Models.CalculateRequest :=
  {| Models.principal := Py.of_Z 10000;
     Models.rate := Py.Fin (11 # 2);
     Models.time := Py.of_Z 3 |}.

(** A deployment whose spreadsheet identifier was not configured. *)
Definition settings_without_id : Config.Settings :=
  {| Config.GOOGLE_SHEET_ID := "";
     Config.GOOGLE_CREDENTIALS_PATH := "credentials.json";
     Config.API_HOST := "0.0.0.0";
     Config.API_PORT := 8000;
     Config.ALLOWED_ORIGINS := ["http://localhost:3000"] |}.

(** A deployment whose credential file is not where it was configured. *)
Definition settings_without_file : Config.Settings :=
  {| Config.GOOGLE_SHEET_ID := "sheet-123";
     Config.GOOGLE_CREDENTIALS_PATH := "missing.json";
     Config.API_HOST := "0.0.0.0";
     Config.API_PORT := 8000;
     Config.ALLOWED_ORIGINS := ["http://localhost:3000"] |}.

(** The same deployment with a transport that follows a fault schedule. *)
Definition with_faults (f : list (option string)) : World :=
  {| path_exists := path_exists world; resolve := resolve world;
     key_file_error := None; doc_key := doc_key world; doc_shared := true;
     titles := titles world; entered := []; display := formulas;
     faults := f; log := [] |}.

End Demo.

(* ===================================================================== *)
(** * Vocabulary of the statements *)
(* ===================================================================== *)

Module Notions.
Import Sheets.

(** A field is at fault when its declared bounds do not hold. *)
Definition at_fault (p r t : Py.float) (name : string) : Prop :=
  (name = "principal" /\ Py.gt p (Py.of_Z 0) = false) \/
  (name = "rate" /\
   (Py.gt r (Py.of_Z 0) = false \/ Py.le r (Py.of_Z 100) = false)) \/
  (name = "time" /\ Py.gt t (Py.of_Z 0) = false).

(** The gateway is connected when it holds a spreadsheet handle. *)
Definition connected (g : GoogleSheetsService) : bool :=
  match spreadsheet g with Some _ => true | None => false end.

(** Some call to the service appears in a list of events. *)
Definition touches_remote (l : list event) : bool := existsb is_remote l.

(** The first [n] outcomes of a fault schedule are successes. *)
Definition quiet (n : nat) (l : list (option string)) : bool :=
  forallb (fun f => match f with None => true | Some _ => false end)
          (firstn n l).

(** The next [n] calls to the service meet no transport failure. *)
Definition calm (n : nat) (w : World) : bool := quiet n (faults w).

(** The world after the calls [evs] went through. *)
Definition after_calls (evs : list event) (w : World) : World :=
  set_faults (set_log w (log w ++ evs)) (skipn (length evs) (faults w)).

(** The required sheets that are not among [existing], in the order of
    [required_sheets]. *)
Definition missing_from (existing : list string) : list string :=
  filter (fun s => negb (Py.contains existing s)) required_sheets.

(** What a cell text stands for: zero for an empty cell, the number it
    spells otherwise, nothing when it spells no number. *)
Definition cell_number (raw : option string) : option Py.float :=
  if Py.truthy raw then Py.float_of_str (show raw) else Some (Py.of_Z 0).

(** What [authenticate] does, in order. *)
Definition connect_plan (g : GoogleSheetsService) : list event :=
  [LoadCredentials (credentials_path g); OpenByKey (sheet_id g)].

(** The events of [write_inputs], in order. *)
Definition write_plan (name pc rc tc : string) (p r t : Py.float)
  : list event :=
  [GetWorksheet name; UpdateCell name pc p; UpdateCell name rc r;
   UpdateCell name tc t; Sleep (1 # 2)].

(** The events of [read_outputs], in order. *)
Definition read_plan (name sc cc : string) : list event :=
  [GetWorksheet name; ReadCell name sc; ReadCell name cc].

(** What writing, waiting and reading do, in order. *)
Definition workflow (p r t : Py.float) : list event :=
  [GetWorksheet "Input";
   UpdateCell "Input" "B2" p;
   UpdateCell "Input" "B3" r;
   UpdateCell "Input" "B4" t;
   Sleep (1 # 2);
   GetWorksheet "Output";
   ReadCell "Output" "B2";
   ReadCell "Output" "B3"].

(** Connect when there is no client yet, then the workflow. *)
Definition plan (g : GoogleSheetsService) (p r t : Py.float) : list event :=
  (match client g with
   | None => connect_plan g
   | Some _ => []
   end ++ workflow p r t)%list.

(** The three inputs as entered cell values, newest first. *)
Definition writes (p r t : Py.float) : entries :=
  [("Input", "B4", t); ("Input", "B3", r); ("Input", "B2", p)].

(** The world after a successful [write_inputs] with the default sheet and
    cells. *)
Definition after_write (p r t : Py.float) (w : World) : World :=
  set_entered
    (set_faults
       (set_log w (log w ++ write_plan "Input" "B2" "B3" "B4" p r t)%list)
       (skipn 4 (faults w)))
    (writes p r t ++ entered w)%list.

(** The program writes to the entered values, the transport schedule and
    the log only: the rest of the world is a frame. *)
Definition frame (w w' : World) : Prop :=
  path_exists w' = path_exists w /\ resolve w' = resolve w /\
  key_file_error w' = key_file_error w /\
  doc_key w' = doc_key w /\ doc_shared w' = doc_shared w /\
  titles w' = titles w /\ display w' = display w.

(** The bounds of a field hold, as a test on its name. *)
Definition within_bounds (p r t : Py.float) (name : string) : bool :=
  if String.eqb name "principal" then Py.gt p (Py.of_Z 0)
  else if String.eqb name "rate" then
    Py.gt r (Py.of_Z 0) && Py.le r (Py.of_Z 100)
  else if String.eqb name "time" then Py.gt t (Py.of_Z 0)
  else true.

(** The cell values a run of [write_inputs] has entered when its first [k]
    updates went through, newest first. *)
Definition written (k : nat) (name pc rc tc : string) (p r t : Py.float)
  : entries :=
  rev (firstn k [(name, pc, p); (name, rc, r); (name, tc, t)]).

(** The events of a run of [write_inputs] that got as far as its update
    number [k] (counted from 0), the failing call included. *)
Definition attempted (k : nat) (name pc rc tc : string) (p r t : Py.float)
  : list event :=
  firstn (S (S k)) (write_plan name pc rc tc p r t).

(** What is shown depends on the newest value of each cell only. *)
Definition reads_newest
    (d : entries -> string -> string -> option string) : Prop :=
  forall en en' sheet cell,
    (forall s c, Demo.entered_value en s c = Demo.entered_value en' s c) ->
    d en sheet cell = d en' sheet cell.

(** An event is a pause. *)
Definition is_sleep (e : event) : bool :=
  match e with Sleep _ => true | _ => false end.

(** An event is part of connecting. *)
Definition is_connect (e : event) : bool :=
  match e with LoadCredentials _ | OpenByKey _ => true | _ => false end.

End Notions.

(* ===================================================================== *)
(** * Facts about the Python values *)
(* ===================================================================== *)

Module PyFacts.

Example float_of_str_integer :
  Py.float_of_str "1650" = Some (Py.of_Z 1650).
Proof. reflexivity. Qed.

Example float_of_str_decimal :
  Py.float_of_str " 1742.41375 " = Some (Py.Fin (1393931 # 800)).
Proof. reflexivity. Qed.

Example float_of_str_exponent :
  Py.float_of_str "-1_0.5e-1" = Some (Py.Fin (-21 # 20)).
Proof. reflexivity. Qed.

Example float_of_str_rejects :
  Py.float_of_str "abc" = None /\ Py.float_of_str "" = None /\
  Py.float_of_str "1,650.00" = None /\ Py.float_of_str "1__0" = None.
Proof. repeat split. Qed.

Example round_two_places :
  Py.round (Py.Fin (1393931 # 800)) 2 = Py.Fin (174241 # 100) /\
  Py.round Py.PosInf 2 = Py.PosInf.
Proof. split; reflexivity. Qed.

End PyFacts.

(* ===================================================================== *)
(** * Properties of the request validator *)
(* ===================================================================== *)

Module ModelsFacts.
Import Models Notions.

#[local] Arguments Py.gt : simpl never.
#[local] Arguments Py.le : simpl never.
#[local] Arguments Py.of_Z : simpl never.

Lemma le_not_gt (v b : Py.float) : Py.le v b = true -> Py.gt v b = false.
Proof.
  unfold Py.gt, Py.lt, Py.le.
  destruct v, b; try congruence.
  intros ->. reflexivity.
Qed.

Lemma gt_not_le (v b : Py.float) : Py.gt v b = true -> Py.le v b = false.
Proof.
  intros H. destruct (Py.le v b) eqn:E; [|reflexivity].
  apply le_not_gt in E. congruence.
Qed.

(** The bound of the field already excludes what [validate_positive]
    looks for. *)
Lemma validate_principal_eq (v : Py.float) :
  validate_principal v =
  if Py.gt v (Py.of_Z 0) then inr v
  else inl {| loc := "principal"; err := greater_than (Py.of_Z 0) |}.
Proof.
  unfold validate_principal, run_field, check_constraints, check_le, check_gt,
    validate_positive. simpl.
  destruct (Py.gt v (Py.of_Z 0)) eqn:G; [|reflexivity].
  rewrite (gt_not_le _ _ G). reflexivity.
Qed.

Lemma validate_time_eq (v : Py.float) :
  validate_time v =
  if Py.gt v (Py.of_Z 0) then inr v
  else inl {| loc := "time"; err := greater_than (Py.of_Z 0) |}.
Proof.
  unfold validate_time, run_field, check_constraints, check_le, check_gt,
    validate_positive. simpl.
  destruct (Py.gt v (Py.of_Z 0)) eqn:G; [|reflexivity].
  rewrite (gt_not_le _ _ G). reflexivity.
Qed.

Lemma validate_rate_field_eq (v : Py.float) :
  validate_rate_field v =
  if Py.le v (Py.of_Z 100) then
    if Py.gt v (Py.of_Z 0) then inr v
    else inl {| loc := "rate"; err := greater_than (Py.of_Z 0) |}
  else inl {| loc := "rate"; err := less_than_equal (Py.of_Z 100) |}.
Proof.
  unfold validate_rate_field, run_field, check_constraints, check_le,
    check_gt, validate_positive, validate_rate. simpl.
  destruct (Py.le v (Py.of_Z 100)) eqn:L; [|reflexivity].
  destruct (Py.gt v (Py.of_Z 0)) eqn:G; [|reflexivity].
  rewrite (gt_not_le _ _ G), (le_not_gt _ _ L). reflexivity.
Qed.

Lemma names_field_by_search (errs : list error_item) (name : string) :
  existsb (fun it => String.eqb (loc it) name) errs = true ->
  names_field errs name.
Proof.
  intros H. apply existsb_exists in H. destruct H as (it & Hin & E).
  exists it. split; [exact Hin|]. now apply String.eqb_eq.
Qed.

(** C2.  The validator is the pure function [model_validate].  With
    principal > 0, 0 < rate <= 100 and time > 0 it returns the request made
    of the three values as given.  With principal <= 0, time <= 0,
    rate <= 0 or rate > 100 it returns an error instead; that error has a
    line for each such field, carrying the field's name, and has no line
    for a field whose bounds hold. *)
Theorem model_validate_accepts_or_names_field (p r t : Py.float) :
  (Py.gt p (Py.of_Z 0) = true ->
   Py.gt r (Py.of_Z 0) = true -> Py.le r (Py.of_Z 100) = true ->
   Py.gt t (Py.of_Z 0) = true ->
   model_validate p r t =
   inr {| principal := p; rate := r; time := t |}) /\
  (Py.le p (Py.of_Z 0) = true \/ Py.le t (Py.of_Z 0) = true \/
   Py.le r (Py.of_Z 0) = true \/ Py.gt r (Py.of_Z 100) = true ->
   exists errs,
     model_validate p r t = inl errs /\
     (Py.le p (Py.of_Z 0) = true -> names_field errs "principal") /\
     (Py.le t (Py.of_Z 0) = true -> names_field errs "time") /\
     (Py.le r (Py.of_Z 0) = true \/ Py.gt r (Py.of_Z 100) = true ->
      names_field errs "rate") /\
     (forall it, In it errs -> at_fault p r t (loc it))).
Proof.
  unfold model_validate.
  rewrite validate_principal_eq, validate_rate_field_eq, validate_time_eq.
  split.
  - intros Hp Hr Hr' Ht. rewrite Hp, Hr, Hr', Ht. reflexivity.
  - intros H.
    assert (Bad : Py.gt p (Py.of_Z 0) = false \/ Py.gt t (Py.of_Z 0) = false \/
                  Py.gt r (Py.of_Z 0) = false \/ Py.le r (Py.of_Z 100) = false).
    { destruct H as [H|[H|[H|H]]].
      - left. now apply le_not_gt.
      - right; left. now apply le_not_gt.
      - right; right; left. now apply le_not_gt.
      - right; right; right. now apply gt_not_le. }
    destruct (Py.gt p (Py.of_Z 0)) eqn:Gp;
      destruct (Py.le r (Py.of_Z 100)) eqn:Lr;
      destruct (Py.gt r (Py.of_Z 0)) eqn:Gr;
      destruct (Py.gt t (Py.of_Z 0)) eqn:Gt;
      try (exfalso; destruct Bad as [B|[B|[B|B]]]; discriminate B);
      (eexists; split; [reflexivity|]);
      (split; [|split; [|split]]).
    all: try (intros Hle; apply le_not_gt in Hle; congruence).
    all: try (intros [Hle|Hgt];
              [apply le_not_gt in Hle | apply gt_not_le in Hgt]; congruence).
    all: try (intros it Hin; simpl in Hin; unfold at_fault;
              repeat (destruct Hin as [<-|Hin]; [simpl; tauto|]);
              contradiction).
    all: intros _; apply names_field_by_search; reflexivity.
Qed.

(** An accepted and a rejected request. *)
Lemma model_validate_accepts_or_names_field_witness :
  model_validate (Py.of_Z 10000) (Py.Fin (11 # 2)) (Py.of_Z 3) =
    inr {| principal := Py.of_Z 10000; rate := Py.Fin (11 # 2);
           time := Py.of_Z 3 |} /\
  exists errs,
    model_validate (Py.of_Z (-5)) (Py.of_Z 150) (Py.of_Z 3) = inl errs /\
    names_field errs "principal" /\ names_field errs "rate" /\
    ~ names_field errs "time".
Proof.
  split.
  - apply (proj1 (model_validate_accepts_or_names_field
                    (Py.of_Z 10000) (Py.Fin (11 # 2)) (Py.of_Z 3)));
      reflexivity.
  - destruct (proj2 (model_validate_accepts_or_names_field
                       (Py.of_Z (-5)) (Py.of_Z 150) (Py.of_Z 3)))
      as (errs & E & Hp & _ & Hr & Only).
    + left. reflexivity.
    + exists errs. split; [exact E|]. split; [apply Hp; reflexivity|].
      split; [apply Hr; right; reflexivity|].
      intros (it & Hin & Hloc). apply Only in Hin. rewrite Hloc in Hin.
      destruct Hin as [[D _]|[[D _]|[_ D]]]; discriminate D.
Defined.

End ModelsFacts.

(* ===================================================================== *)
(** * Properties of the spreadsheet gateway *)
(* ===================================================================== *)

Module SheetsFacts.
Import Sheets Notions.

#[local] Arguments Py.contains : simpl never.
#[local] Arguments Py.float_of_str : simpl never.
#[local] Arguments Py.truthy : simpl never.
#[local] Arguments Py.join : simpl never.
#[local] Arguments String.append : simpl never.
#[local] Arguments String.eqb : simpl never.

(** Unfolds the monad and the program text, leaving library functions and
    string operations folded. *)
Ltac exec :=
  cbv beta iota zeta delta
    [bind ret raise try_except get put
     self remote set_client set_spreadsheet
     Remote.record Remote.call Remote.from_service_account_file
     Remote.authorize Remote.open_by_key Remote.worksheet Remote.worksheets
     Remote.update_acell Remote.acell_value Remote.sleep
     authenticate write_inputs read_outputs calculate_interest
     verify_sheet_structure parse_cell float_or_zero];
  cbn [fst snd tl set_log set_faults set_entered
       path_exists resolve key_file_error doc_key doc_shared titles entered
       display faults log
       credentials_path sheet_id client spreadsheet ws_title].

(** The same in a hypothesis, for a run on a gateway and a world given by
    their fields: projections are computed too, so that every state on the
    way is a plain record. *)
Ltac exec_in E :=
  cbv beta iota zeta delta
    [bind ret raise try_except get put
     self remote set_client set_spreadsheet
     Remote.record Remote.call Remote.from_service_account_file
     Remote.authorize Remote.open_by_key Remote.worksheet Remote.worksheets
     Remote.update_acell Remote.acell_value Remote.sleep
     authenticate write_inputs read_outputs calculate_interest
     verify_sheet_structure parse_cell float_or_zero
     fst snd tl set_log set_faults set_entered
     path_exists resolve key_file_error doc_key doc_shared titles entered
     display faults log
     credentials_path sheet_id client spreadsheet ws_title] in E.

(** The term on which the evaluation of [t] waits: the scrutinee of its
    outermost pending case analysis. *)
Ltac pending t :=
  lazymatch t with
  | match ?x with _ => _ end => pending x
  | ?f _ => pending_fun f t
  | _ => t
  end
with pending_fun f t :=
  lazymatch f with
  | match ?x with _ => _ end => pending x
  | ?f' _ => pending_fun f' t
  | _ => t
  end.

(** Symbolic execution of the run recorded in [E : run = result]: unfold,
    then split on what the run waits for (a transport outcome, a test, a
    parse), in the order of the program. *)
Ltac crunch_in E :=
  repeat
    (exec_in E;
     lazymatch type of E with
     | ?lhs = _ =>
         let x := pending lhs in
         lazymatch x with
         | (_, _) => idtac; fail
         | _ => tryif is_var x then destruct x else destruct x eqn:?
         end
     end);
  exec_in E.

Lemma quiet_S_inv (n : nat) (l : list (option string)) :
  quiet (S n) l = true ->
  l = [] \/ exists l', l = None :: l' /\ quiet n l' = true.
Proof.
  unfold quiet. destruct l as [|[m|] l']; cbn.
  - now left.
  - discriminate.
  - intros H. right. now exists l'.
Qed.

Lemma quiet_le (n m : nat) (l : list (option string)) :
  (n <= m)%nat -> quiet m l = true -> quiet n l = true.
Proof.
  revert m l. induction n as [|n IH]; intros m l Hle H; [reflexivity|].
  destruct m as [|m]; [lia|].
  apply quiet_S_inv in H. destruct H as [->|(l' & -> & H)]; [reflexivity|].
  unfold quiet in *. cbn. apply (IH m); [lia|exact H].
Qed.

Lemma contains_In (l : list string) (x : string) :
  Py.contains l x = true <-> In x l.
Proof.
  unfold Py.contains. rewrite existsb_exists. split.
  - intros (y & Hin & E). apply String.eqb_eq in E. now subst.
  - intros Hin. exists x. split; [exact Hin|]. apply String.eqb_refl.
Qed.

(** ** Without a spreadsheet handle *)

Lemma write_inputs_without_handle g w p r t name pc rc tc :
  spreadsheet g = None ->
  write_inputs p r t name pc rc tc (g, w) = (Raise not_authenticated, (g, w)).
Proof. intros H. exec. rewrite H. reflexivity. Qed.

Lemma read_outputs_without_handle g w name sc cc :
  spreadsheet g = None ->
  read_outputs name sc cc (g, w) = (Raise not_authenticated, (g, w)).
Proof. intros H. exec. rewrite H. reflexivity. Qed.

Lemma verify_without_handle g w :
  spreadsheet g = None ->
  verify_sheet_structure (g, w) = (Return (false, "Not authenticated"), (g, w)).
Proof. intros H. exec. rewrite H. reflexivity. Qed.

(** With a client but no spreadsheet handle, the lazy connect of
    [calculate_interest] is skipped and its write step fails at once. *)
Lemma calculate_interest_without_handle g w p r t :
  client g <> None ->
  spreadsheet g = None ->
  calculate_interest p r t (g, w) = (Raise not_authenticated, (g, w)).
Proof.
  intros Hc Hss. exec. destruct (client g) as [c|]; [|congruence].
  exec. rewrite Hss. reflexivity.
Qed.

(** C10.  Called on a gateway without a spreadsheet handle, [write_inputs]
    raises the not-authenticated exception and leaves the gateway and the
    whole world as they were: nothing was sent to the service, the log has
    no new event and the entered cell values are the old ones. *)
Theorem write_inputs_disconnected_is_atomic g w p r t name pc rc tc :
  connected g = false ->
  exists g' w',
    write_inputs p r t name pc rc tc (g, w)
    = (Raise not_authenticated, (g', w')) /\
    g' = g /\ w' = w /\ log w' = log w /\ entered w' = entered w.
Proof.
  unfold connected. intros H.
  exists g, w. rewrite write_inputs_without_handle.
  - repeat split.
  - destruct (spreadsheet g); [discriminate|reflexivity].
Qed.

Lemma write_inputs_disconnected_is_atomic_witness :
  exists g' w',
    write_inputs (Py.of_Z 10000) (Py.Fin (11 # 2)) (Py.of_Z 3)
                 "Input" "B2" "B3" "B4" (Demo.fresh, Demo.world)
    = (Raise not_authenticated, (g', w')) /\
    g' = Demo.fresh /\ w' = Demo.world /\
    log w' = log Demo.world /\ entered w' = entered Demo.world.
Proof.
  apply (write_inputs_disconnected_is_atomic Demo.fresh Demo.world).
  reflexivity.
Defined.

(** C5, as the code has it.  Without a spreadsheet handle, [write_inputs]
    and [read_outputs] raise the not-authenticated exception with the
    gateway and the world untouched, and so does [calculate_interest] when
    its lazy connect is skipped; [verify_sheet_structure] touches nothing
    either, but it returns the pair [(False, "Not authenticated")] instead
    of raising. *)
Theorem disconnected_operations_touch_nothing g w :
  connected g = false ->
  (forall p r t name pc rc tc,
     write_inputs p r t name pc rc tc (g, w)
     = (Raise not_authenticated, (g, w))) /\
  (forall name sc cc,
     read_outputs name sc cc (g, w) = (Raise not_authenticated, (g, w))) /\
  (forall p r t,
     client g <> None ->
     calculate_interest p r t (g, w) = (Raise not_authenticated, (g, w))) /\
  verify_sheet_structure (g, w)
  = (Return (false, "Not authenticated"), (g, w)).
Proof.
  unfold connected. intros H.
  assert (E : spreadsheet g = None)
    by (destruct (spreadsheet g); [discriminate|reflexivity]).
  repeat split; intros.
  - now apply write_inputs_without_handle.
  - now apply read_outputs_without_handle.
  - now apply calculate_interest_without_handle.
  - now apply verify_without_handle.
Qed.

Lemma disconnected_operations_touch_nothing_witness :
  write_inputs (Py.of_Z 10000) (Py.Fin (11 # 2)) (Py.of_Z 3)
    "Input" "B2" "B3" "B4" (Demo.fresh, Demo.world)
  = (Raise not_authenticated, (Demo.fresh, Demo.world)) /\
  read_outputs "Output" "B2" "B3" (Demo.fresh, Demo.world)
  = (Raise not_authenticated, (Demo.fresh, Demo.world)) /\
  verify_sheet_structure (Demo.fresh, Demo.world)
  = (Return (false, "Not authenticated"), (Demo.fresh, Demo.world)).
Proof.
  destruct (disconnected_operations_touch_nothing
              Demo.fresh Demo.world eq_refl)
    as (Hw & Hr & _ & Hv).
  split; [apply Hw|]. split; [apply Hr|exact Hv].
Defined.

(** C5 as stated fails for [verify_sheet_structure]: on a gateway that
    never connected it returns normally. *)
Lemma verify_disconnected_does_not_raise :
  connected Demo.fresh = false /\
  verify_sheet_structure (Demo.fresh, Demo.world)
  = (Return (false, "Not authenticated"), (Demo.fresh, Demo.world)) /\
  forall e, fst (verify_sheet_structure (Demo.fresh, Demo.world)) <> Raise e.
Proof.
  split; [reflexivity|]. split; [reflexivity|].
  intros e. discriminate.
Qed.

(** ** The structure check *)

Lemma titles_of_worksheets (l : list string) :
  map ws_title (map MkWorksheet l) = l.
Proof. induction l as [|x l IH]; simpl; [|rewrite IH]; reflexivity. Qed.

Lemma verify_with_handle g w ss :
  spreadsheet g = Some ss ->
  calm 1 w = true ->
  verify_sheet_structure (g, w)
  = (Return
       match missing_from (titles w) with
       | _ :: _ =>
           (false,
            "Missing required sheets: "
            ++ Py.join ", " (missing_from (titles w)))
       | [] => (true, "Sheet structure verified successfully")
       end,
     (g, set_faults (set_log w (log w ++ [ListWorksheets]))
                    (tl (faults w)))).
Proof.
  intros Hss Hcalm. unfold missing_from. exec. rewrite Hss. exec.
  unfold calm, quiet in Hcalm.
  destruct (faults w) as [|[m|] fs]; simpl in Hcalm; try discriminate;
    exec; rewrite titles_of_worksheets;
    destruct (filter _ required_sheets); reflexivity.
Qed.




(** ** Reading the output cells *)

(** Case analysis on the transport outcomes that a calm prefix allows. *)
Ltac calm_cases H :=
  unfold calm in H; cbn [faults] in H;
  repeat match type of H with
         | quiet (S _) _ = true =>
             apply quiet_S_inv in H; destruct H as [->|(? & -> & H)]
         end.

Ltac tidy_log := rewrite <- ?app_assoc; cbn [app].

Lemma read_outputs_with_handle g w ss name sc cc :
  spreadsheet g = Some ss ->
  calm 3 w = true ->
  Py.contains (titles w) name = true ->
  read_outputs name sc cc (g, w)
  = (match cell_number (display w (entered w) name sc),
           cell_number (display w (entered w) name cc) with
     | Some si, Some ci =>
         Return {| simpleInterest := si; compoundInterest := ci |}
     | None, _ =>
         Raise (Exception
                  ("Failed to read outputs: "
                   ++ ("Invalid " ++ "simple interest" ++ " value in " ++ sc
                       ++ ": " ++ show (display w (entered w) name sc))))
     | Some _, None =>
         Raise (Exception
                  ("Failed to read outputs: "
                   ++ ("Invalid " ++ "compound interest" ++ " value in " ++ cc
                       ++ ": " ++ show (display w (entered w) name cc))))
     end,
     (g, after_calls [GetWorksheet name; ReadCell name sc; ReadCell name cc]
                     w)).
Proof.
  intros Hss Hcalm Hin. unfold cell_number, after_calls.
  destruct w as [pe rs kf dk dsh ti en di fa lg].
  cbn [titles] in Hin. calm_cases Hcalm.
  all: exec; rewrite Hss; exec; rewrite Hin; exec; tidy_log.
  all: destruct (Py.truthy (di en name sc)); exec;
       [destruct (Py.float_of_str (show (di en name sc))); exec|].
  all: destruct (Py.truthy (di en name cc)); exec;
       try (destruct (Py.float_of_str (show (di en name cc))); exec).
  all: reflexivity.
Qed.




(** ** The calculation workflow *)

Lemma frame_refl w : frame w w.
Proof. repeat split. Qed.

Lemma frame_trans w1 w2 w3 : frame w1 w2 -> frame w2 w3 -> frame w1 w3.
Proof.
  unfold frame. intros (A1 & A2 & A3 & A4 & A5 & A6 & A7)
                       (B1 & B2 & B3 & B4 & B5 & B6 & B7).
  repeat split; congruence.
Qed.

(** Every run of [authenticate]. *)
Lemma authenticate_run g w :
  exists res g' w' done rest,
    authenticate (g, w) = (res, (g', w')) /\
    log w' = (log w ++ done)%list /\
    (done ++ rest)%list = connect_plan g /\
    frame w w' /\ entered w' = entered w /\
    credentials_path g' = credentials_path g /\ sheet_id g' = sheet_id g /\
    match res with
    | Return _ =>
        rest = [] /\ client g' <> None /\ spreadsheet g' <> None
    | Raise e =>
        (exists msg, e = Exception msg) /\ spreadsheet g' = spreadsheet g
    end.
Proof.
  destruct w as [pe rs kf dk dsh ti en di fa lg].
  destruct g as [cp sid cl sp].
  unfold connect_plan, frame.
  remember (authenticate _) as run eqn:E. symmetry in E.
  crunch_in E.
  all: subst run.
  all: cbn [log display entered titles client spreadsheet credentials_path
            sheet_id path_exists resolve key_file_error doc_key doc_shared];
       tidy_log.
  all: eexists _, _, _, _, _; (split; [reflexivity|]).
  all: cbn [log display entered titles client spreadsheet credentials_path
            sheet_id path_exists resolve key_file_error doc_key doc_shared].
  all: split; [first [reflexivity | symmetry; apply app_nil_r]|].
  all: split; [cbn [app]; reflexivity|].
  all: repeat split; try discriminate; try reflexivity.
  all: eexists; reflexivity.
Qed.

(** Every run of [write_inputs]. *)
Lemma write_inputs_run g w p r t name pc rc tc :
  exists res g' w' done rest,
    write_inputs p r t name pc rc tc (g, w) = (res, (g', w')) /\
    log w' = (log w ++ done)%list /\
    (done ++ rest)%list = write_plan name pc rc tc p r t /\
    frame w w' /\ g' = g /\
    match res with
    | Return _ =>
        rest = [] /\ spreadsheet g <> None /\
        entered w' = ((name, tc, t) :: (name, rc, r) :: (name, pc, p)
                      :: entered w)
    | Raise e => exists msg, e = Exception msg
    end.
Proof.
  destruct w as [pe rs kf dk dsh ti en di fa lg].
  destruct g as [cp sid cl sp].
  unfold write_plan, frame, not_authenticated.
  remember (write_inputs _ _ _ _ _ _ _ _) as run eqn:E. symmetry in E.
  crunch_in E.
  all: subst run.
  all: cbn [log display entered titles client spreadsheet credentials_path
            sheet_id path_exists resolve key_file_error doc_key doc_shared];
       tidy_log.
  all: eexists _, _, _, _, _; (split; [reflexivity|]).
  all: cbn [log display entered titles client spreadsheet credentials_path
            sheet_id path_exists resolve key_file_error doc_key doc_shared].
  all: split; [first [reflexivity | symmetry; apply app_nil_r]|].
  all: split; [cbn [app]; reflexivity|].
  all: repeat split; try discriminate; try reflexivity.
  all: eexists; reflexivity.
Qed.

(** Every run of [read_outputs]. *)
Lemma read_outputs_run g w name sc cc :
  exists res g' w' done rest,
    read_outputs name sc cc (g, w) = (res, (g', w')) /\
    log w' = (log w ++ done)%list /\
    (done ++ rest)%list = read_plan name sc cc /\
    frame w w' /\ g' = g /\ entered w' = entered w /\
    match res with
    | Return results =>
        rest = [] /\ spreadsheet g <> None /\
        cell_number (display w (entered w) name sc)
        = Some (simpleInterest results) /\
        cell_number (display w (entered w) name cc)
        = Some (compoundInterest results)
    | Raise e => exists msg, e = Exception msg
    end.
Proof.
  destruct w as [pe rs kf dk dsh ti en di fa lg].
  destruct g as [cp sid cl sp].
  unfold read_plan, frame, not_authenticated, cell_number.
  remember (read_outputs _ _ _ _) as run eqn:E. symmetry in E.
  crunch_in E.
  all: subst run.
  all: cbn [log display entered titles client spreadsheet credentials_path
            sheet_id path_exists resolve key_file_error doc_key doc_shared
            simpleInterest compoundInterest];
       tidy_log.
  all: eexists _, _, _, _, _; (split; [reflexivity|]).
  all: cbn [log display entered titles client spreadsheet credentials_path
            sheet_id path_exists resolve key_file_error doc_key doc_shared
            simpleInterest compoundInterest].
  all: split; [first [reflexivity | symmetry; apply app_nil_r]|].
  all: split; [cbn [app]; reflexivity|].
  all: repeat match goal with
              | H : Py.truthy _ = _ |- _ => rewrite H
              end.
  all: repeat split; try discriminate; try reflexivity; try assumption.
  all: eexists; reflexivity.
Qed.

Lemma workflow_split (p r t : Py.float) :
  workflow p r t
  = (write_plan "Input" "B2" "B3" "B4" p r t
     ++ read_plan "Output" "B2" "B3")%list.
Proof. reflexivity. Qed.

(** Every run of writing followed by reading. *)
Lemma write_then_read_run g w p r t :
  exists res g' w' done rest,
    (write_inputs p r t "Input" "B2" "B3" "B4" ;;;
     read_outputs "Output" "B2" "B3") (g, w) = (res, (g', w')) /\
    log w' = (log w ++ done)%list /\
    (done ++ rest)%list = workflow p r t /\
    frame w w' /\ g' = g /\
    match res with
    | Return results =>
        rest = [] /\ spreadsheet g <> None /\
        entered w' = (writes p r t ++ entered w)%list /\
        cell_number (display w' (entered w') "Output" "B2")
        = Some (simpleInterest results) /\
        cell_number (display w' (entered w') "Output" "B3")
        = Some (compoundInterest results)
    | Raise e => exists msg, e = Exception msg
    end.
Proof.
  destruct (write_inputs_run g w p r t "Input" "B2" "B3" "B4")
    as (res1 & g1 & w1 & d1 & r1 & E1 & L1 & P1 & F1 & -> & M1).
  unfold bind. rewrite E1. rewrite workflow_split.
  destruct res1 as [[]|e1].
  - destruct M1 as (-> & Hss & En1). rewrite app_nil_r in P1. subst d1.
    destruct (read_outputs_run g w1 "Output" "B2" "B3")
      as (res2 & g2 & w2 & d2 & r2 & E2 & L2 & P2 & F2 & -> & En2 & M2).
    rewrite E2.
    exists res2, g, w2, (write_plan "Input" "B2" "B3" "B4" p r t ++ d2)%list,
      r2.
    split; [reflexivity|].
    split; [rewrite L2, L1; apply eq_sym, app_assoc|].
    split; [rewrite <- app_assoc; now rewrite P2|].
    split; [exact (frame_trans _ _ _ F1 F2)|].
    split; [reflexivity|].
    destruct res2 as [results|e2]; [|exact M2].
    destruct M2 as (-> & _ & B2 & B3).
    assert (D : display w2 = display w1) by apply F2.
    rewrite D, En2.
    repeat split; try assumption.
  - exists (Raise e1), g, w1, d1, (r1 ++ read_plan "Output" "B2" "B3")%list.
    split; [reflexivity|]. split; [exact L1|].
    split; [now rewrite app_assoc, P1|].
    split; [exact F1|]. split; [reflexivity|]. exact M1.
Qed.

(** Every run of [calculate_interest]: its events are an initial part of
    the plan; when it returns, the plan was carried out in full, the three
    inputs were entered and the result is what the two output cells then
    show; when it raises, it raises a plain [Exception]. *)
Lemma calculate_interest_run g w p r t :
  exists res g' w' done rest,
    calculate_interest p r t (g, w) = (res, (g', w')) /\
    log w' = (log w ++ done)%list /\
    (done ++ rest)%list = plan g p r t /\
    frame w w' /\
    credentials_path g' = credentials_path g /\ sheet_id g' = sheet_id g /\
    match res with
    | Return results =>
        rest = [] /\
        client g' <> None /\ spreadsheet g' <> None /\
        entered w' = (writes p r t ++ entered w)%list /\
        cell_number (display w' (entered w') "Output" "B2")
        = Some (simpleInterest results) /\
        cell_number (display w' (entered w') "Output" "B3")
        = Some (compoundInterest results)
    | Raise e => exists msg, e = Exception msg
    end.
Proof.
  unfold calculate_interest, plan.
  change ((g0 <- self ;; ?k) (g, w)) with (k (g, w)).
  unfold bind at 1 2. unfold self at 1. cbn [fst].
  destruct (client g) as [c|] eqn:Hc.
  - unfold ret at 1.
    destruct (write_then_read_run g w p r t)
      as (res & g' & w' & done & rest & E & L & P & F & -> & M).
    unfold bind in E |- *. rewrite E.
    exists res, g, w', done, rest.
    split; [reflexivity|]. split; [exact L|]. split; [exact P|].
    split; [exact F|]. split; [reflexivity|]. split; [reflexivity|].
    destruct res as [results|e]; [|exact M].
    destruct M as (-> & Hss & M). repeat split; try apply M; congruence.
  - destruct (authenticate_run g w)
      as (res0 & g0 & w0 & d0 & r0 & E0 & L0 & P0 & F0 & En0 & Hcp & Hsid
          & M0).
    rewrite E0. destruct res0 as [[]|e0].
    + destruct M0 as (-> & Hcl & Hss0). rewrite app_nil_r in P0. subst d0.
      destruct (write_then_read_run g0 w0 p r t)
        as (res & g' & w' & done & rest & E & L & P & F & -> & M).
      unfold bind in E |- *. rewrite E.
      exists res, g0, w', (connect_plan g ++ done)%list, rest.
      split; [reflexivity|].
      split; [rewrite L, L0; apply eq_sym, app_assoc|].
      split; [rewrite <- app_assoc; now rewrite P|].
      split; [exact (frame_trans _ _ _ F0 F)|].
      split; [exact Hcp|]. split; [exact Hsid|].
      destruct res as [results|e]; [|exact M].
      destruct M as (-> & Hss & En & M).
      split; [reflexivity|]. split; [exact Hcl|]. split; [exact Hss|].
      split; [congruence|]. exact M.
    + exists (Raise e0), g0, w0, d0, (r0 ++ workflow p r t)%list.
      split; [reflexivity|]. split; [exact L0|].
      split; [now rewrite app_assoc, P0|].
      split; [exact F0|]. split; [exact Hcp|]. split; [exact Hsid|].
      apply M0.
Qed.

(** ** The workflow when every call goes through *)

Lemma quiet_skipn (n m : nat) (l : list (option string)) :
  quiet (n + m) l = true -> quiet m (skipn n l) = true.
Proof.
  revert l. induction n as [|n IH]; intros l H; [exact H|].
  cbn [Nat.add] in H. apply quiet_S_inv in H.
  destruct H as [->|(l' & -> & H)].
  - destruct m; reflexivity.
  - cbn [skipn]. now apply IH.
Qed.

Lemma write_inputs_ok g w ss p r t :
  spreadsheet g = Some ss ->
  calm 4 w = true ->
  Py.contains (titles w) "Input" = true ->
  write_inputs p r t "Input" "B2" "B3" "B4" (g, w)
  = (Return tt, (g, after_write p r t w)).
Proof.
  intros Hss Hcalm Hin. unfold after_write, write_plan, writes.
  destruct w as [pe rs kf dk dsh ti en di fa lg].
  destruct g as [cp sid cl sp].
  cbn [titles] in Hin. cbn [spreadsheet] in Hss. subst sp.
  calm_cases Hcalm.
  all: remember (write_inputs _ _ _ _ _ _ _ _) as run eqn:E; symmetry in E.
  all: crunch_in E; try discriminate Hin.
  all: subst run.
  all: cbv [set_entered set_faults set_log path_exists resolve key_file_error
            doc_key doc_shared titles entered display faults log skipn].
  all: tidy_log; reflexivity.
Qed.




End SheetsFacts.

(* ===================================================================== *)
(** * Properties of the application *)
(* ===================================================================== *)

Module MainFacts.
Import Main.

Section WithSettings.

Variable settings : Config.Settings.

(** ** The shared instance *)

(** Once [sheets_service] is bound, [get_sheets_service] hands out that
    object and does nothing else. *)
Lemma get_sheets_service_bound app g :
  sheets_service app = Some g ->
  get_sheets_service settings app = (Return (Some g), app).
Proof.
  intros H. unfold get_sheets_service, bind, get, ret. now rewrite !H.
Qed.

(** The first call of [get_sheets_service]: it either binds a connected
    gateway, having opened the spreadsheet, or raises an HTTP 500. *)
Lemma get_sheets_service_unbound app :
  sheets_service app = None ->
  exists res app',
    get_sheets_service settings app = (res, app') /\
    Notions.frame (world app) (world app') /\
    entered (world app') = entered (world app) /\
    match res with
    | Return o =>
        exists g,
          o = Some g /\ sheets_service app' = Some g /\
          Sheets.client g <> None /\ Sheets.spreadsheet g <> None /\
          Sheets.sheet_id g = Config.GOOGLE_SHEET_ID settings /\
          log (world app')
          = (log (world app) ++ Notions.connect_plan g)%list
    | Raise e =>
        exists detail,
          e = HTTPException HTTP_500_INTERNAL_SERVER_ERROR
                ("Failed to initialize Google Sheets service: " ++ detail)
    end.
Proof.
  destruct app as [svc w]. cbn [sheets_service world]. intros ->.
  unfold get_sheets_service, Config.get_credentials_path, Sheets.init.
  cbv beta iota zeta delta
    [bind ret raise try_except get put in_world set_sheets_service
     sheets_service world].
  destruct (String.eqb (Config.GOOGLE_SHEET_ID settings) "").
  { eexists _, _. split; [reflexivity|].
    split; [apply SheetsFacts.frame_refl|]. split; [reflexivity|].
    eexists. reflexivity. }
  destruct (negb (path_exists w (resolve w _))).
  { eexists _, _. split; [reflexivity|].
    split; [apply SheetsFacts.frame_refl|]. split; [reflexivity|].
    eexists. reflexivity. }
  cbv beta iota zeta delta [on_service sheets_service world].
  match goal with
  | |- context [Sheets.authenticate (?g0, w)] =>
      destruct (SheetsFacts.authenticate_run g0 w)
        as (res & g' & w' & done & rest & E & L & P & F & En & Hcp & Hsid & M);
      rewrite E
  end.
  cbn [Sheets.credentials_path Sheets.sheet_id] in Hcp, Hsid.
  destruct res as [[]|e].
  - destruct M as (-> & Hc & Hss). rewrite app_nil_r in P. subst done.
    eexists _, _. split; [reflexivity|]. cbn [world sheets_service].
    split; [exact F|]. split; [exact En|].
    exists g'. repeat split; try assumption.
    rewrite L. unfold Notions.connect_plan.
    cbn [Sheets.credentials_path Sheets.sheet_id]. now rewrite Hcp, Hsid.
  - destruct M as ((msg & ->) & _).
    eexists _, _. split; [reflexivity|]. cbn [world sheets_service].
    split; [exact F|]. split; [exact En|].
    eexists. reflexivity.
Qed.

(** ** The endpoint *)

(** The gateway's workflow run on the shared instance. *)
Lemma on_service_calculate_run app g p r t :
  sheets_service app = Some g ->
  exists res app',
    on_service (Sheets.calculate_interest p r t) app = (res, app') /\
    match res with
    | Return results =>
        Notions.cell_number
          (display (world app') (entered (world app')) "Output" "B2")
        = Some (Sheets.simpleInterest results) /\
        Notions.cell_number
          (display (world app') (entered (world app')) "Output" "B3")
        = Some (Sheets.compoundInterest results)
    | Raise e => exists msg, e = Exception msg
    end.
Proof.
  intros H. unfold on_service. rewrite H.
  destruct (SheetsFacts.calculate_interest_run g (world app) p r t)
    as (res & g' & w' & done & rest & E & _ & _ & _ & _ & _ & M).
  rewrite E. exists res. eexists. split; [reflexivity|].
  cbn [world]. destruct res as [results|e]; [|exact M].
  destruct M as (_ & _ & _ & _ & B2 & B3). split; assumption.
Qed.

(** Every run of the endpoint: a response built from the request and from
    what the output cells show, or an HTTP 500 whose detail starts with
    "Calculation failed: ". *)
Lemma calculate_interest_endpoint_run request app :
  exists res app',
    calculate_interest settings request app = (res, app') /\
    match res with
    | Return resp =>
        Models.resp_principal resp = Some (Models.principal request) /\
        Models.resp_rate resp = Some (Models.rate request) /\
        Models.resp_time resp = Some (Models.time request) /\
        exists si ci,
          Notions.cell_number
            (display (world app') (entered (world app')) "Output" "B2")
          = Some si /\
          Notions.cell_number
            (display (world app') (entered (world app')) "Output" "B3")
          = Some ci /\
          Models.simpleInterest resp = Py.round si 2 /\
          Models.compoundInterest resp = Py.round ci 2
    | Raise e =>
        exists msg,
          e = HTTPException HTTP_500_INTERNAL_SERVER_ERROR
                ("Calculation failed: " ++ msg)
    end.
Proof.
  assert (Bound : forall o app0 g,
             sheets_service app0 = Some g ->
             get_sheets_service settings app = (Return o, app0) ->
             exists res app',
               calculate_interest settings request app = (res, app') /\
               match res with
               | Return resp =>
                   Models.resp_principal resp
                   = Some (Models.principal request) /\
                   Models.resp_rate resp = Some (Models.rate request) /\
                   Models.resp_time resp = Some (Models.time request) /\
                   exists si ci,
                     Notions.cell_number
                       (display (world app') (entered (world app'))
                                "Output" "B2") = Some si /\
                     Notions.cell_number
                       (display (world app') (entered (world app'))
                                "Output" "B3") = Some ci /\
                     Models.simpleInterest resp = Py.round si 2 /\
                     Models.compoundInterest resp = Py.round ci 2
               | Raise e =>
                   exists msg,
                     e = HTTPException HTTP_500_INTERNAL_SERVER_ERROR
                           ("Calculation failed: " ++ msg)
               end).
  { intros o app0 g Hg E0.
    destruct (on_service_calculate_run
                app0 g (Models.principal request) (Models.rate request)
                (Models.time request) Hg)
      as (res & app' & E & M).
    unfold calculate_interest, try_except, bind. rewrite E0, E.
    destruct res as [results|e].
    - eexists _, _. split; [reflexivity|].
      cbn [Models.resp_principal Models.resp_rate Models.resp_time
           Models.simpleInterest Models.compoundInterest].
      destruct M as (B2 & B3).
      repeat split. eexists _, _. repeat split; eassumption.
    - destruct M as (msg & ->).
      eexists _, _. split; [reflexivity|]. eexists. reflexivity. }
  destruct (sheets_service app) as [g|] eqn:Hsvc.
  - apply (Bound (Some g) app g Hsvc).
    now apply get_sheets_service_bound.
  - destruct (get_sheets_service_unbound app Hsvc)
      as (res0 & app0 & E0 & _ & _ & M0).
    destruct res0 as [o|e0].
    + destruct M0 as (g & _ & Hg & _). now apply (Bound o app0 g Hg).
    + destruct M0 as (detail & ->).
      unfold calculate_interest, try_except, bind. rewrite E0.
      eexists _, _. split; [reflexivity|]. eexists. reflexivity.
Qed.


(** C7, as the code has it.  Whatever the endpoint raises is answered with
    status 500 and a body whose only key is "error", holding
    "Calculation failed: " followed by the message of the failure; a
    returned response is answered with status 200.  So a failure of the
    gateway is never answered with status 400. *)
Theorem post_calculate_answers_200_or_500 request app :
  match calculate_interest settings request app with
  | (Return r, app') =>
      post_calculate settings request app
      = ({| status_code := 200; content := Model r |}, app')
  | (Raise e, app') =>
      exists msg,
        post_calculate settings request app
        = ({| status_code := 500;
              content := Object [("error", "Calculation failed: " ++ msg)] |},
           app')
  end /\
  (status_code (fst (post_calculate settings request app)) = 200 \/
   status_code (fst (post_calculate settings request app)) = 500) /\
  (status_code (fst (post_calculate settings request app)) = 500 ->
   keys (content (fst (post_calculate settings request app))) = ["error"]).
Proof.
  destruct (calculate_interest_endpoint_run request app)
    as (res & app1 & E & M).
  unfold post_calculate. rewrite E.
  destruct res as [r|e].
  - split; [reflexivity|]. split; [left; reflexivity|].
    cbn. discriminate.
  - destruct M as (msg & ->).
    split; [exists msg; reflexivity|]. split; [right; reflexivity|].
    reflexivity.
Qed.

(** C8, as the code has it.  The startup hook calls
    [get_sheets_service]: when startup succeeds, before any request is
    served, [sheets_service] is bound to a gateway that holds a client and
    a spreadsheet handle, and the spreadsheet has been opened.  A call of
    [get_sheets_service] that finds [sheets_service] unbound and returns
    has bound a connected gateway; every call that finds it bound returns
    that same object and touches nothing. *)
Theorem startup_connects_and_instance_is_reused :
  (forall w app',
     lifespan settings (start w) = (Return tt, app') ->
     exists g,
       sheets_service app' = Some g /\
       Sheets.client g <> None /\ Sheets.spreadsheet g <> None /\
       log (world app') = (log w ++ Notions.connect_plan g)%list) /\
  (forall app o app',
     sheets_service app = None ->
     get_sheets_service settings app = (Return o, app') ->
     exists g,
       o = Some g /\ sheets_service app' = Some g /\
       Sheets.client g <> None /\ Sheets.spreadsheet g <> None) /\
  (forall app g,
     sheets_service app = Some g ->
     get_sheets_service settings app = (Return (Some g), app)).
Proof.
  split; [|split].
  - intros w app' H.
    unfold lifespan, try_except, bind, in_world, Config.validate in H.
    cbn [world sheets_service start] in H.
    destruct (String.eqb (Config.GOOGLE_SHEET_ID settings) "");
      [discriminate H|].
    unfold bind, get, raise, ret in H.
    destruct (negb (path_exists w _)); [discriminate H|].
    destruct (get_sheets_service_unbound
                {| sheets_service := None; world := w |} eq_refl)
      as (res & app1 & E & _ & _ & M).
    rewrite E in H. destruct res as [o|e]; [|discriminate H].
    injection H as <-.
    destruct M as (g & _ & Hg & Hc & Hss & _ & L).
    exists g. repeat split; assumption.
  - intros app o app' Hnone H.
    destruct (get_sheets_service_unbound app Hnone)
      as (res & app1 & E & _ & _ & M).
    rewrite H in E. injection E as <- <-.
    destruct M as (g & Ho & Hg & Hc & Hss & _).
    exists g. repeat split; assumption.
  - intros app g. apply get_sheets_service_bound.
Qed.

End WithSettings.

(** ** Runs of the demo deployment *)


Lemma post_calculate_answers_200_or_500_witness :
  keys (content (fst (post_calculate Demo.settings Demo.request
                        (start (Demo.with_titles ["Calc"; "Output"])))))
  = ["error"].
Proof.
  apply (proj2 (proj2 (post_calculate_answers_200_or_500
                         Demo.settings Demo.request
                         (start (Demo.with_titles ["Calc"; "Output"]))))).
  vm_compute. reflexivity.
Defined.

(** C7 as stated fails: with no sheet "Input" the gateway fails, and the
    answer is a 500 whose body has the key "error" and no key "detail". *)
Lemma remote_failure_body_has_no_detail :
  let resp :=
    fst (post_calculate Demo.settings Demo.request
           (start (Demo.with_titles ["Calc"; "Output"]))) in
  status_code resp = 500 /\
  content resp
  = Object [("error",
             "Calculation failed: Worksheet 'Input' not found. Please ensure the sheet exists.")] /\
  keys (content resp) = ["error"] /\
  keys (content resp) <> ["error"; "detail"] /\
  ~ In "detail" (keys (content resp)).
Proof.
  vm_compute. repeat split; try discriminate.
  intros [H|[]]. discriminate H.
Qed.

Lemma startup_connects_and_instance_is_reused_witness :
  (exists g,
     sheets_service (snd (lifespan Demo.settings (start Demo.world)))
     = Some g /\
     Sheets.client g <> None /\ Sheets.spreadsheet g <> None /\
     log (world (snd (lifespan Demo.settings (start Demo.world))))
     = (log Demo.world ++ Notions.connect_plan g)%list) /\
  get_sheets_service Demo.settings
    {| sheets_service := Some Demo.connected; world := Demo.world |}
  = (Return (Some Demo.connected),
     {| sheets_service := Some Demo.connected; world := Demo.world |}).
Proof.
  destruct (startup_connects_and_instance_is_reused Demo.settings)
    as (Hstart & _ & Hreuse).
  split.
  - apply Hstart. vm_compute. reflexivity.
  - apply Hreuse. reflexivity.
Defined.

(** C8 as stated fails: when startup has finished and no request has been
    served yet, the spreadsheet has already been opened and the gateway is
    bound. *)
Lemma startup_opens_spreadsheet_before_any_request :
  let run := lifespan Demo.settings (start Demo.world) in
  fst run = Return tt /\
  sheets_service (snd run) = Some Demo.connected /\
  log (world (snd run))
  = [LoadCredentials "/srv/app/credentials.json"; OpenByKey "sheet-123"] /\
  Notions.touches_remote (log (world (snd run))) = true.
Proof. vm_compute. repeat split. Qed.

(** C6 on the code.  The first connect fails because the spreadsheet is not
    shared with the service account.  The failed [authenticate] has set the
    client and left the spreadsheet handle unset.  From then on, in any
    world (also one where the spreadsheet has been shared meanwhile),
    [get_sheets_service] returns the bound object without connecting, the
    test [if not self.client] of [calculate_interest] skips [authenticate],
    and the request fails with "Not authenticated" without a single call to
    the service. *)
Theorem failed_open_is_never_retried :
  let run1 := Sheets.authenticate (Demo.fresh, Demo.unshared) in
  let g1 := fst (snd run1) in
  (exists msg, fst run1 = Raise (Exception msg)) /\
  Sheets.client Demo.fresh = None /\
  Sheets.client g1
  = Some (MkClient (MkCredentials "/srv/app/credentials.json")) /\
  Sheets.spreadsheet g1 = None /\
  (forall w p r t,
     Sheets.calculate_interest p r t (g1, w)
     = (Raise Sheets.not_authenticated, (g1, w))) /\
  let app1 :=
    snd (post_calculate Demo.settings Demo.request (start Demo.unshared)) in
  sheets_service app1 = Some g1 /\
  forall w,
    let app := {| sheets_service := sheets_service app1; world := w |} in
    get_sheets_service Demo.settings app = (Return (Some g1), app) /\
    post_calculate Demo.settings Demo.request app
    = ({| status_code := 500;
          content :=
            Object [("error",
                     "Calculation failed: Not authenticated. Call authenticate() first.")] |},
       app).
Proof.
  cbv zeta.
  assert (E1 : fst (snd (Sheets.authenticate (Demo.fresh, Demo.unshared)))
               = {| Sheets.credentials_path := "/srv/app/credentials.json";
                    Sheets.sheet_id := "sheet-123";
                    Sheets.client :=
                      Some (MkClient
                              (MkCredentials "/srv/app/credentials.json"));
                    Sheets.spreadsheet := None |})
    by (vm_compute; reflexivity).
  assert (E2 : sheets_service
                 (snd (post_calculate Demo.settings Demo.request
                         (start Demo.unshared)))
               = Some (fst (snd (Sheets.authenticate
                                   (Demo.fresh, Demo.unshared)))))
    by (vm_compute; reflexivity).
  rewrite E2, E1.
  split; [eexists; vm_compute; reflexivity|].
  split; [reflexivity|]. split; [reflexivity|]. split; [reflexivity|].
  assert (Skip : forall w p r t,
             Sheets.calculate_interest p r t
               ({| Sheets.credentials_path := "/srv/app/credentials.json";
                   Sheets.sheet_id := "sheet-123";
                   Sheets.client :=
                     Some (MkClient
                             (MkCredentials "/srv/app/credentials.json"));
                   Sheets.spreadsheet := None |}, w)
             = (Raise Sheets.not_authenticated,
                ({| Sheets.credentials_path := "/srv/app/credentials.json";
                    Sheets.sheet_id := "sheet-123";
                    Sheets.client :=
                      Some (MkClient
                              (MkCredentials "/srv/app/credentials.json"));
                    Sheets.spreadsheet := None |}, w))).
  { intros w p r t.
    apply SheetsFacts.calculate_interest_without_handle;
      [discriminate|reflexivity]. }
  split; [exact Skip|]. split; [reflexivity|].
  intros w. split.
  - apply get_sheets_service_bound. reflexivity.
  - unfold post_calculate, calculate_interest, try_except, bind.
    erewrite get_sheets_service_bound by reflexivity.
    unfold on_service. cbn [sheets_service world Demo.request
                            Models.principal Models.rate Models.time].
    rewrite Skip. reflexivity.
Qed.

End MainFacts.

(* ===================================================================== *)
(** * Further properties of the request validator *)
(* ===================================================================== *)

Module ModelsMore.
Import Models Notions.

#[local] Arguments Py.gt : simpl never.
#[local] Arguments Py.le : simpl never.
#[local] Arguments Py.of_Z : simpl never.

(** X1.  [model_validate] accepts exactly when every field is within its
    declared bounds, and then returns the three values as given; when it
    rejects, the error has one line per field out of bounds, in the order
    principal, rate, time.  This holds for every float, infinities and NaN
    included. *)
Theorem model_validate_accepts_iff_within_bounds (p r t : Py.float) :
  match model_validate p r t with
  | inr req =>
      req = {| principal := p; rate := r; time := t |} /\
      forallb (within_bounds p r t) ["principal"; "rate"; "time"] = true
  | inl errs =>
      map loc errs
      = filter (fun name => negb (within_bounds p r t name))
               ["principal"; "rate"; "time"] /\
      exists it rest, errs = it :: rest
  end.
Proof.
  unfold model_validate.
  rewrite ModelsFacts.validate_principal_eq,
    ModelsFacts.validate_rate_field_eq, ModelsFacts.validate_time_eq.
  unfold within_bounds. cbn [forallb filter String.eqb Ascii.eqb Bool.eqb].
  destruct (Py.gt p (Py.of_Z 0)), (Py.le r (Py.of_Z 100)),
    (Py.gt r (Py.of_Z 0)), (Py.gt t (Py.of_Z 0));
    cbn; split; try reflexivity; eexists _, _; reflexivity.
Qed.

(** X2.  The bounds of a field are checked before its validators, and they
    already exclude what [validate_positive] and [validate_rate] look for:
    no error of [model_validate] is a [ValueError] of a validator.  Every
    error line is the violation of a declared bound: "greater than 0", or
    "less than or equal to 100" for the rate. *)
Theorem validators_never_reject (p r t : Py.float) (errs : list error_item)
    (it : error_item) :
  model_validate p r t = inl errs ->
  In it errs ->
  err it = greater_than (Py.of_Z 0) \/
  (loc it = "rate" /\ err it = less_than_equal (Py.of_Z 100)).
Proof.
  unfold model_validate.
  rewrite ModelsFacts.validate_principal_eq,
    ModelsFacts.validate_rate_field_eq, ModelsFacts.validate_time_eq.
  destruct (Py.gt p (Py.of_Z 0)), (Py.le r (Py.of_Z 100)),
    (Py.gt r (Py.of_Z 0)), (Py.gt t (Py.of_Z 0));
    cbn; intros E Hin; try discriminate E;
    injection E as <-; cbn in Hin;
    repeat (destruct Hin as [<-|Hin]; [cbn; tauto|]); contradiction.
Qed.

Lemma validators_never_reject_witness :
  exists errs,
    model_validate (Py.of_Z (-5)) (Py.of_Z 150) (Py.of_Z 3) = inl errs /\
    forall it, In it errs ->
      err it = greater_than (Py.of_Z 0) \/
      (loc it = "rate" /\ err it = less_than_equal (Py.of_Z 100)).
Proof.
  eexists. split; [reflexivity|].
  intros it.
  apply (validators_never_reject
           (Py.of_Z (-5)) (Py.of_Z 150) (Py.of_Z 3)).
  reflexivity.
Defined.

End ModelsMore.

(* ===================================================================== *)
(** * Further properties of the spreadsheet gateway *)
(* ===================================================================== *)

Module SheetsMore.
Import Sheets Notions SheetsFacts.

#[local] Arguments Py.contains : simpl never.
#[local] Arguments Py.float_of_str : simpl never.
#[local] Arguments Py.truthy : simpl never.
#[local] Arguments Py.join : simpl never.
#[local] Arguments String.append : simpl never.
#[local] Arguments String.eqb : simpl never.

(** ** Connecting *)

(** X4.  Every run of [authenticate].  When it returns, it has loaded the
    credentials and opened the spreadsheet, and the gateway holds a client
    and the handle of its spreadsheet.  When it raises, it raises a plain
    [Exception] whose message starts with "Credentials file not found: ",
    "Spreadsheet not found. Check if:" or "Authentication failed: ", and
    the spreadsheet handle is what it was.  A failure before the service
    was contacted leaves the whole gateway as it was; a failure after it
    leaves the client set.  No run changes the entered cell values. *)
Theorem authenticate_outcomes g w :
  exists res g' w' done,
    authenticate (g, w) = (res, (g', w')) /\
    log w' = (log w ++ done)%list /\
    entered w' = entered w /\
    match res with
    | Return _ =>
        done = connect_plan g /\
        client g' <> None /\
        spreadsheet g' = Some (MkSpreadsheet (sheet_id g))
    | Raise e =>
        spreadsheet g' = spreadsheet g /\
        (exists msg detail,
           e = Exception msg /\
           (msg = "Credentials file not found: " ++ detail \/
            msg = "Spreadsheet not found. Check if:" ++ detail \/
            msg = "Authentication failed: " ++ detail)) /\
        (touches_remote done = false -> g' = g) /\
        (touches_remote done = true -> client g' <> None)
    end.
Proof.
  destruct w as [pe rs kf dk dsh ti en di fa lg].
  destruct g as [cp sid cl sp].
  unfold connect_plan.
  remember (authenticate _) as run eqn:E. symmetry in E.
  crunch_in E.
  all: subst run.
  all: cbn [log entered client spreadsheet credentials_path sheet_id];
       tidy_log.
  all: eexists _, _, _, _; (split; [reflexivity|]).
  all: cbn [log entered client spreadsheet credentials_path sheet_id].
  all: split; [first [reflexivity | symmetry; apply app_nil_r]|].
  all: split; [reflexivity|].
  all: try (split; [reflexivity|]; split; [discriminate|reflexivity]).
  all: split; [reflexivity|].
  all: split;
    [eexists _, _; split;
     [reflexivity
     |first [left; reflexivity | right; left; reflexivity
            | right; right; reflexivity]]|].
  all: split; cbn; intros H;
    first [discriminate H | reflexivity | discriminate].
Qed.

Lemma authenticate_outcomes_witness :
  exists g' w',
    authenticate (Demo.fresh, Demo.unshared)
    = (Raise (Exception
                ("Spreadsheet not found. Check if:" ++ nl
                 ++ "1. Sheet ID is correct: sheet-123" ++ nl
                 ++ "2. Sheet is shared with service account email")),
       (g', w')) /\
    client g' <> None /\ spreadsheet g' = None.
Proof.
  destruct (authenticate_outcomes Demo.fresh Demo.unshared)
    as (res & g' & w' & done & E & L & _ & M).
  exists g', w'.
  vm_compute in E. injection E as <- <- <-.
  cbn in L. subst done.
  destruct M as (Hss & _ & _ & Hc).
  split; [vm_compute; reflexivity|].
  split; [apply Hc; reflexivity|exact Hss].
Defined.

(** ** Construction *)

(** X3.  The constructor checks the spreadsheet identifier before the
    credential file, touches nothing, and a gateway it returns is
    disconnected: until [authenticate] has run, writing and reading fail
    at once and the structure check answers "Not authenticated", whatever
    the world. *)
Theorem init_gives_disconnected_gateway cp sid w :
  (sid = "" ->
   init cp sid w = (Raise (ValueError "Sheet ID cannot be empty"), w)) /\
  (sid <> "" -> path_exists w cp = false ->
   init cp sid w
   = (Raise (FileNotFoundError ("Credentials file not found: " ++ cp)), w)) /\
  (forall g w',
     init cp sid w = (Return g, w') ->
     w' = w /\ sid <> "" /\ path_exists w cp = true /\
     client g = None /\ spreadsheet g = None /\
     forall w2,
       (forall p r t name pc rc tc,
          write_inputs p r t name pc rc tc (g, w2)
          = (Raise not_authenticated, (g, w2))) /\
       (forall name sc cc,
          read_outputs name sc cc (g, w2)
          = (Raise not_authenticated, (g, w2))) /\
       verify_sheet_structure (g, w2)
       = (Return (false, "Not authenticated"), (g, w2))).
Proof.
  unfold init, bind, get, raise, ret.
  destruct (String.eqb_spec sid "") as [->|Hsid].
  - split; [reflexivity|]. split; [congruence|]. discriminate.
  - split; [congruence|].
    destruct (path_exists w cp) eqn:Hp; cbn [negb].
    + split; [discriminate|]. intros g w' E. injection E as <- <-.
      repeat split; assumption.
    + split; [reflexivity|]. discriminate.
Qed.

Lemma init_gives_disconnected_gateway_witness :
  init "/srv/app/credentials.json" "" Demo.world
  = (Raise (ValueError "Sheet ID cannot be empty"), Demo.world) /\
  init "nowhere.json" "sheet-123" Demo.world
  = (Raise (FileNotFoundError "Credentials file not found: nowhere.json"),
     Demo.world) /\
  read_outputs "Output" "B2" "B3" (Demo.fresh, Demo.unshared)
  = (Raise not_authenticated, (Demo.fresh, Demo.unshared)).
Proof.
  split; [|split].
  - apply (proj1 (init_gives_disconnected_gateway
                    "/srv/app/credentials.json" "" Demo.world)).
    reflexivity.
  - apply (proj1 (proj2 (init_gives_disconnected_gateway
                           "nowhere.json" "sheet-123" Demo.world)));
      [discriminate|reflexivity].
  - destruct (proj2 (proj2 (init_gives_disconnected_gateway
                              "/srv/app/credentials.json" "sheet-123"
                              Demo.world))
                Demo.fresh Demo.world eq_refl)
      as (_ & _ & _ & _ & _ & Hops).
    apply (Hops Demo.unshared).
Defined.

(** ** Writing *)

(** X5.  [write_inputs] is not atomic.  When the sheet is found and the
    transport fails on update number [k] (0, 1 or 2), the run raises
    "Failed to write inputs: " followed by the transport's message, the
    [k] earlier updates stay entered in the spreadsheet, the later ones
    are not attempted, and there is no pause. *)
Theorem write_inputs_is_not_atomic g w ss name pc rc tc p r t k msg fs :
  spreadsheet g = Some ss ->
  Py.contains (titles w) name = true ->
  (k <= 2)%nat ->
  faults w = (repeat None (S k) ++ Some msg :: fs)%list ->
  exists w',
    write_inputs p r t name pc rc tc (g, w)
    = (Raise (Exception ("Failed to write inputs: " ++ msg)), (g, w')) /\
    entered w' = (written k name pc rc tc p r t ++ entered w)%list /\
    log w' = (log w ++ attempted k name pc rc tc p r t)%list /\
    existsb is_sleep (attempted k name pc rc tc p r t) = false /\
    faults w' = fs.
Proof.
  intros Hss Hin Hk Hf. unfold written, attempted, write_plan.
  destruct w as [pe rs kf dk dsh ti en di fa lg].
  destruct g as [cp sid cl sp].
  cbn [titles] in Hin. cbn [spreadsheet] in Hss. cbn [faults] in Hf.
  subst sp fa.
  destruct k as [|[|[|k]]]; [| | |lia]; cbn [repeat app].
  all: remember (write_inputs _ _ _ _ _ _ _ _) as run eqn:E; symmetry in E.
  all: crunch_in E; try discriminate Hin.
  all: subst run.
  all: eexists; split; [reflexivity|].
  all: cbn [entered log faults firstn rev app existsb is_sleep orb].
  all: tidy_log; repeat split.
Qed.

Lemma write_inputs_is_not_atomic_witness :
  exists w',
    write_inputs (Py.of_Z 10000) (Py.Fin (11 # 2)) (Py.of_Z 3)
      "Input" "B2" "B3" "B4"
      (Demo.connected, Demo.with_faults [None; None; Some "quota"])
    = (Raise (Exception "Failed to write inputs: quota"),
       (Demo.connected, w')) /\
    entered w' = [("Input", "B2", Py.of_Z 10000)] /\
    log w' = [GetWorksheet "Input";
              UpdateCell "Input" "B2" (Py.of_Z 10000);
              UpdateCell "Input" "B3" (Py.Fin (11 # 2))].
Proof.
  destruct (write_inputs_is_not_atomic
              Demo.connected (Demo.with_faults [None; None; Some "quota"])
              (MkSpreadsheet "sheet-123") "Input" "B2" "B3" "B4"
              (Py.of_Z 10000) (Py.Fin (11 # 2)) (Py.of_Z 3)
              1%nat "quota" [] eq_refl eq_refl ltac:(lia) eq_refl)
    as (w' & E & En & L & _ & _).
  exists w'. split; [exact E|]. split; [exact En|exact L].
Defined.

(** X6.  Every run of [write_inputs].  A run that returns has fetched the
    sheet, made the three updates in the order principal, rate, time and
    then paused for 0.5.  A run that raises has not paused and has entered
    at most the first two values; it raises a plain [Exception].  The
    gateway is never changed. *)
Theorem write_inputs_outcomes g w p r t name pc rc tc :
  exists res w' done,
    write_inputs p r t name pc rc tc (g, w) = (res, (g, w')) /\
    log w' = (log w ++ done)%list /\
    match res with
    | Return _ =>
        done = write_plan name pc rc tc p r t /\
        entered w' = (written 3 name pc rc tc p r t ++ entered w)%list
    | Raise e =>
        (exists msg, e = Exception msg) /\
        existsb is_sleep done = false /\
        exists k, (k <= 2)%nat /\
          entered w' = (written k name pc rc tc p r t ++ entered w)%list
    end.
Proof.
  destruct w as [pe rs kf dk dsh ti en di fa lg].
  destruct g as [cp sid cl sp].
  unfold write_plan, written, not_authenticated.
  remember (write_inputs _ _ _ _ _ _ _ _) as run eqn:E. symmetry in E.
  crunch_in E.
  all: subst run.
  all: cbn [log entered]; tidy_log.
  all: eexists _, _, _; (split; [reflexivity|]).
  all: cbn [log entered].
  all: split; [first [reflexivity | symmetry; apply app_nil_r]|].
  all: try (split; reflexivity).
  all: split; [eexists; reflexivity|]. 
  all: split; [reflexivity|].
  all: first [ exists 0%nat; split; [lia|reflexivity]
             | exists 1%nat; split; [lia|reflexivity]
             | exists 2%nat; split; [lia|reflexivity] ].
Qed.

(** The newest value of a cell after [write_inputs] on the default cells. *)
Lemma entered_value_after_writes p r t en :
  Demo.entered_value (writes p r t ++ en)%list "Input" "B2" = Some p /\
  Demo.entered_value (writes p r t ++ en)%list "Input" "B3" = Some r /\
  Demo.entered_value (writes p r t ++ en)%list "Input" "B4" = Some t /\
  forall s c,
    ~ (s = "Input" /\ (c = "B2" \/ c = "B3" \/ c = "B4")) ->
    Demo.entered_value (writes p r t ++ en)%list s c
    = Demo.entered_value en s c.
Proof.
  split; [reflexivity|]. split; [reflexivity|]. split; [reflexivity|].
  intros s c H. unfold writes. cbn [app Demo.entered_value].
  destruct (String.eqb_spec "Input" s) as [<-|Hs]; cbn [andb];
    [|reflexivity].
  destruct (String.eqb_spec "B4" c) as [<-|H4]; [exfalso; tauto|].
  destruct (String.eqb_spec "B3" c) as [<-|H3]; [exfalso; tauto|].
  destruct (String.eqb_spec "B2" c) as [<-|H2]; [exfalso; tauto|].
  reflexivity.
Qed.

(** X7.  Writing then looking up.  After a run of [write_inputs] on the
    default cells that returns, the newest entered value of Input!B2 is the
    principal, of Input!B3 the rate and of Input!B4 the time, whatever was
    entered before, and the newest value of every other cell is what it
    was. *)
Theorem write_inputs_then_lookup g w p r t g' w' :
  write_inputs p r t "Input" "B2" "B3" "B4" (g, w) = (Return tt, (g', w')) ->
  Demo.entered_value (entered w') "Input" "B2" = Some p /\
  Demo.entered_value (entered w') "Input" "B3" = Some r /\
  Demo.entered_value (entered w') "Input" "B4" = Some t /\
  forall s c,
    ~ (s = "Input" /\ (c = "B2" \/ c = "B3" \/ c = "B4")) ->
    Demo.entered_value (entered w') s c = Demo.entered_value (entered w) s c.
Proof.
  intros H.
  destruct (write_inputs_run g w p r t "Input" "B2" "B3" "B4")
    as (res & g1 & w1 & done & rest & E & _ & _ & _ & _ & M).
  rewrite H in E. injection E as <- <- <-.
  destruct M as (_ & _ & En). rewrite En.
  apply (entered_value_after_writes p r t (entered w)).
Qed.

Lemma write_inputs_then_lookup_witness :
  let w' := snd (snd (write_inputs (Py.of_Z 10000) (Py.Fin (11 # 2))
                        (Py.of_Z 3) "Input" "B2" "B3" "B4"
                        (Demo.connected, Demo.world))) in
  Demo.entered_value (entered w') "Input" "B2" = Some (Py.of_Z 10000) /\
  Demo.entered_value (entered w') "Input" "B3" = Some (Py.Fin (11 # 2)) /\
  Demo.entered_value (entered w') "Input" "B4" = Some (Py.of_Z 3).
Proof.
  cbv zeta.
  destruct (write_inputs_then_lookup
              Demo.connected Demo.world
              (Py.of_Z 10000) (Py.Fin (11 # 2)) (Py.of_Z 3)
              Demo.connected
              (snd (snd (write_inputs (Py.of_Z 10000) (Py.Fin (11 # 2))
                           (Py.of_Z 3) "Input" "B2" "B3" "B4"
                           (Demo.connected, Demo.world)))))
    as (A & B & C & _).
  - vm_compute. reflexivity.
  - repeat split; assumption.
Defined.

(** ** Reading and checking *)

(** Every run of [verify_sheet_structure]. *)
Lemma verify_run g w :
  exists res w',
    verify_sheet_structure (g, w) = (res, (g, w')) /\
    frame w w' /\ entered w' = entered w /\
    match res with
    | Return (true, msg) =>
        spreadsheet g <> None /\ missing_from (titles w) = [] /\
        msg = "Sheet structure verified successfully" /\
        log w' = (log w ++ [ListWorksheets])%list
    | Return (false, msg) =>
        (spreadsheet g = None /\ msg = "Not authenticated" /\ w' = w) \/
        (spreadsheet g <> None /\ missing_from (titles w) <> [] /\
         msg = "Missing required sheets: "
               ++ Py.join ", " (missing_from (titles w)) /\
         log w' = (log w ++ [ListWorksheets])%list)
    | Raise e =>
        spreadsheet g <> None /\ (exists msg, e = APIError msg) /\
        log w' = (log w ++ [ListWorksheets])%list
    end.
Proof.
  destruct (spreadsheet g) as [ss|] eqn:Hss.
  - destruct (faults w) as [|[m|] fs] eqn:Hf.
    + assert (Hc : calm 1 w = true) by (unfold calm; now rewrite Hf).
      rewrite (verify_with_handle g w ss Hss Hc).
      eexists _, _. split; [reflexivity|].
      split; [repeat split|]. split; [reflexivity|].
      destruct (missing_from (titles w)) eqn:Hm.
      * repeat split; discriminate.
      * right. repeat split; discriminate.
    + exists (Raise (APIError m)).
      destruct w as [pe rs kf dk dsh ti en di fa lg]. cbn [faults] in Hf.
      subst fa. eexists. split.
      * exec. rewrite Hss. exec. reflexivity.
      * split; [repeat split|]. split; [reflexivity|].
        split; [discriminate|]. split; [eexists; reflexivity|reflexivity].
    + assert (Hc : calm 1 w = true) by (unfold calm; now rewrite Hf).
      rewrite (verify_with_handle g w ss Hss Hc).
      eexists _, _. split; [reflexivity|].
      split; [repeat split|]. split; [reflexivity|].
      destruct (missing_from (titles w)) eqn:Hm.
      * repeat split; discriminate.
      * right. repeat split; discriminate.
  - rewrite (verify_without_handle g w Hss).
    eexists _, _. split; [reflexivity|].
    split; [apply frame_refl|]. split; [reflexivity|].
    left. repeat split.
Qed.

(** X8.  [read_outputs] and [verify_sheet_structure] only read: no run of
    either changes the gateway, the entered cell values, the worksheets or
    what the cells show. *)
Theorem reading_and_checking_never_write g w name sc cc :
  (exists res w',
     read_outputs name sc cc (g, w) = (res, (g, w')) /\
     entered w' = entered w /\ frame w w') /\
  (exists res w',
     verify_sheet_structure (g, w) = (res, (g, w')) /\
     entered w' = entered w /\ frame w w').
Proof.
  split.
  - destruct (read_outputs_run g w name sc cc)
      as (res & g' & w' & done & rest & E & _ & _ & F & -> & En & _).
    exists res, w'. repeat split; try assumption; apply F.
  - destruct (verify_run g w) as (res & w' & E & F & En & _).
    exists res, w'. repeat split; try assumption; apply F.
Qed.

(** The missing sheets depend on the membership of the required names
    only. *)
Lemma missing_from_ext (t1 t2 : list string) :
  (forall s, In s required_sheets -> (In s t1 <-> In s t2)) ->
  missing_from t1 = missing_from t2.
Proof.
  intros H. unfold missing_from. apply filter_ext_in. intros s Hs.
  f_equal. specialize (H s Hs). rewrite <- !contains_In in H.
  destruct (Py.contains t1 s), (Py.contains t2 s); intuition congruence.
Qed.

(** X9.  The verdict of [verify_sheet_structure] depends only on which of
    "Input", "Calc" and "Output" are among the worksheet titles: the order
    of the worksheets, repeated titles and further worksheets make no
    difference to the verdict or to the message. *)
Theorem verify_sheet_structure_ignores_order_and_extras g w1 w2 ss :
  spreadsheet g = Some ss ->
  calm 1 w1 = true -> calm 1 w2 = true ->
  (forall s, In s required_sheets ->
             (In s (titles w1) <-> In s (titles w2))) ->
  fst (verify_sheet_structure (g, w1)) = fst (verify_sheet_structure (g, w2)).
Proof.
  intros Hss H1 H2 H.
  rewrite (verify_with_handle g w1 ss Hss H1),
    (verify_with_handle g w2 ss Hss H2).
  cbn [fst]. now rewrite (missing_from_ext _ _ H).
Qed.

Lemma verify_sheet_structure_ignores_order_and_extras_witness :
  fst (verify_sheet_structure
         (Demo.connected, Demo.with_titles ["Input"; "Calc"; "Output"]))
  = fst (verify_sheet_structure
           (Demo.connected,
            Demo.with_titles ["Notes"; "Output"; "Calc"; "Output"; "Input"])).
Proof.
  apply (verify_sheet_structure_ignores_order_and_extras
           Demo.connected _ _ (MkSpreadsheet "sheet-123"));
    try reflexivity.
  intros s [<-|[<-|[<-|[]]]]; cbn; intuition congruence.
Defined.

Lemma verify_with_fault g w ss msg fs :
  spreadsheet g = Some ss ->
  faults w = Some msg :: fs ->
  exists w',
    verify_sheet_structure (g, w) = (Raise (APIError msg), (g, w')) /\
    entered w' = entered w /\
    log w' = (log w ++ [ListWorksheets])%list.
Proof.
  intros Hss Hf.
  destruct w as [pe rs kf dk dsh ti en di fa lg]. cbn [faults] in Hf.
  subst fa.
  eexists. split; [exec; rewrite Hss; exec; reflexivity|].
  split; reflexivity.
Qed.

(** X10.  A transport failure on the first call.  [write_inputs] and
    [read_outputs] wrap it in an [Exception] whose message starts with
    "Failed to write inputs: " or "Failed to read outputs: ";
    [verify_sheet_structure] has no handler and lets the error of the
    client library through as it is.  In all three cases nothing was
    written. *)
Theorem first_call_failure g w ss msg fs :
  spreadsheet g = Some ss ->
  faults w = Some msg :: fs ->
  (forall p r t name pc rc tc,
     exists w',
       write_inputs p r t name pc rc tc (g, w)
       = (Raise (Exception ("Failed to write inputs: " ++ msg)), (g, w')) /\
       entered w' = entered w /\
       log w' = (log w ++ [GetWorksheet name])%list) /\
  (forall name sc cc,
     exists w',
       read_outputs name sc cc (g, w)
       = (Raise (Exception ("Failed to read outputs: " ++ msg)), (g, w')) /\
       entered w' = entered w /\
       log w' = (log w ++ [GetWorksheet name])%list) /\
  exists w',
    verify_sheet_structure (g, w) = (Raise (APIError msg), (g, w')) /\
    entered w' = entered w /\
    log w' = (log w ++ [ListWorksheets])%list.
Proof.
  intros Hss Hf.
  split; [|split]; [| |exact (verify_with_fault g w ss msg fs Hss Hf)].
  all: destruct w as [pe rs kf dk dsh ti en di fa lg]; cbn [faults] in Hf;
       subst fa; intros.
  - eexists. split; [exec; rewrite Hss; exec; reflexivity|].
    split; reflexivity.
  - eexists. split; [exec; rewrite Hss; exec; reflexivity|].
    split; reflexivity.
Qed.

Lemma first_call_failure_witness :
  exists w',
    verify_sheet_structure
      (Demo.connected, Demo.with_faults [Some "503 backend error"])
    = (Raise (APIError "503 backend error"), (Demo.connected, w')) /\
    entered w' = [] /\ log w' = [ListWorksheets].
Proof.
  destruct (first_call_failure
              Demo.connected (Demo.with_faults [Some "503 backend error"])
              (MkSpreadsheet "sheet-123") "503 backend error" []
              eq_refl eq_refl)
    as (_ & _ & w' & E & En & L).
  exists w'. repeat split; assumption.
Defined.

(** ** Two requests on the same cells *)

Lemma entered_value_shadowed pA rA tA pB rB tB en s c :
  Demo.entered_value (writes pB rB tB ++ writes pA rA tA ++ en)%list s c
  = Demo.entered_value (writes pB rB tB ++ en)%list s c.
Proof.
  unfold writes. cbn [app Demo.entered_value].
  destruct (String.eqb "Input" s); cbn [andb]; [|reflexivity].
  destruct (String.eqb "B4" c); [reflexivity|].
  destruct (String.eqb "B3" c); [reflexivity|].
  destruct (String.eqb "B2" c); reflexivity.
Qed.

Lemma calm_after_write n p r t w :
  calm (4 + n) w = true -> calm n (after_write p r t w) = true.
Proof.
  unfold calm, after_write. cbn [faults set_entered set_faults].
  apply quiet_skipn.
Qed.

(** X16.  The last writer wins.  When a second [write_inputs] lands between
    the first one and its [read_outputs], on a spreadsheet whose cells show
    a function of the newest entered values, the read returns exactly what
    it returns after the second write alone: the first request is answered
    with the figures of the second one's inputs. *)
Theorem last_writer_wins g w ss pA rA tA pB rB tB :
  spreadsheet g = Some ss ->
  calm 11 w = true ->
  Py.contains (titles w) "Input" = true ->
  Py.contains (titles w) "Output" = true ->
  reads_newest (display w) ->
  fst ((write_inputs pA rA tA "Input" "B2" "B3" "B4" ;;;
        write_inputs pB rB tB "Input" "B2" "B3" "B4" ;;;
        read_outputs "Output" "B2" "B3") (g, w))
  = fst ((write_inputs pB rB tB "Input" "B2" "B3" "B4" ;;;
          read_outputs "Output" "B2" "B3") (g, w)).
Proof.
  intros Hss Hcalm Hin Hout Hnew. unfold bind.
  assert (C4 : calm 4 w = true) by (apply (quiet_le 4 11); [lia|exact Hcalm]).
  assert (C7 : calm (4 + 3) w = true)
    by (apply (quiet_le 7 11); [lia|exact Hcalm]).
  assert (CA : calm (4 + 3) (after_write pA rA tA w) = true)
    by (apply (calm_after_write 7), Hcalm).
  rewrite (write_inputs_ok g w ss pA rA tA Hss C4 Hin).
  rewrite (write_inputs_ok g (after_write pA rA tA w) ss pB rB tB Hss
             (quiet_le 4 7 _ ltac:(lia) CA) Hin).
  rewrite (write_inputs_ok g w ss pB rB tB Hss C4 Hin).
  rewrite (read_outputs_with_handle g _ ss "Output" "B2" "B3" Hss
             (calm_after_write 3 pB rB tB _ CA) Hout).
  rewrite (read_outputs_with_handle g _ ss "Output" "B2" "B3" Hss
             (calm_after_write 3 pB rB tB _ C7) Hout).
  cbn [fst]. unfold after_write at 1 2 3 4 5 6 7 8.
  cbn [display entered set_entered set_faults set_log].
  unfold after_write. cbn [display entered set_entered set_faults set_log].
  rewrite !(Hnew _ _ "Output" _
              (entered_value_shadowed pA rA tA pB rB tB (entered w))).
  reflexivity.
Qed.

Lemma formulas_reads_newest : reads_newest Demo.formulas.
Proof.
  intros en en' sheet cell H. unfold Demo.formulas. now rewrite !H.
Qed.

(** The example request, overtaken by a request for 1 at 1% over 1 year on
    a spreadsheet that knows the example only: the read finds the cells
    empty. *)
Lemma last_writer_wins_witness :
  fst ((write_inputs (Py.of_Z 10000) (Py.Fin (11 # 2)) (Py.of_Z 3)
          "Input" "B2" "B3" "B4" ;;;
        write_inputs (Py.of_Z 1) (Py.of_Z 1) (Py.of_Z 1)
          "Input" "B2" "B3" "B4" ;;;
        read_outputs "Output" "B2" "B3") (Demo.connected, Demo.world))
  = fst ((write_inputs (Py.of_Z 1) (Py.of_Z 1) (Py.of_Z 1)
            "Input" "B2" "B3" "B4" ;;;
          read_outputs "Output" "B2" "B3") (Demo.connected, Demo.world)).
Proof.
  apply (last_writer_wins Demo.connected Demo.world
           (MkSpreadsheet "sheet-123")); try reflexivity.
  exact formulas_reads_newest.
Defined.

End SheetsMore.

(* ===================================================================== *)
(** * Further properties of the application *)
(* ===================================================================== *)

Module MainMore.
Import Main Routes Notions.

#[local] Arguments String.append : simpl never.
#[local] Arguments String.eqb : simpl never.

Section WithSettings.

Variable settings : Config.Settings.

(** ** Startup *)

(** X12.  Startup fails fast.  With no spreadsheet identifier configured,
    or with no file at the configured credential path, [lifespan] raises
    the [ValueError] of [Settings.validate] before anything else happens:
    [sheets_service] stays unbound and the world is untouched.  Whatever
    else makes startup fail is the HTTP 500 of [get_sheets_service]. *)
Theorem lifespan_fails_fast w :
  (Config.GOOGLE_SHEET_ID settings = "" ->
   lifespan settings (start w)
   = (Raise (ValueError "GOOGLE_SHEET_ID environment variable is not set"),
      start w)) /\
  (Config.GOOGLE_SHEET_ID settings <> "" ->
   path_exists w (Config.GOOGLE_CREDENTIALS_PATH settings) = false ->
   lifespan settings (start w)
   = (Raise (ValueError ("Google credentials file not found at: "
                         ++ Config.GOOGLE_CREDENTIALS_PATH settings)),
      start w)) /\
  (forall e app',
     lifespan settings (start w) = (Raise e, app') ->
     (exists msg, e = ValueError msg /\ app' = start w) \/
     (exists detail,
        e = HTTPException HTTP_500_INTERNAL_SERVER_ERROR
              ("Failed to initialize Google Sheets service: " ++ detail))).
Proof.
  unfold lifespan, try_except, bind, in_world, Config.validate.
  cbn [world sheets_service start].
  destruct (String.eqb_spec (Config.GOOGLE_SHEET_ID settings) "")
    as [Hid|Hid].
  { split; [reflexivity|]. split; [congruence|].
    intros e app' E. injection E as <- <-. left. eexists. now split. }
  split; [congruence|].
  unfold bind, get, raise, ret.
  destruct (path_exists w (Config.GOOGLE_CREDENTIALS_PATH settings));
    cbn [negb].
  - split; [discriminate|].
    intros e app'.
    destruct (MainFacts.get_sheets_service_unbound settings
                {| sheets_service := None; world := w |} eq_refl)
      as (res & app1 & E & _ & _ & M).
    rewrite E. destruct res as [o|e0]; [discriminate|].
    intros H. injection H as <- <-. right. exact M.
  - split; [reflexivity|].
    intros e app' E. injection E as <- <-. left. eexists. now split.
Qed.

(** ** The shared instance *)

(** X11.  How [get_sheets_service] fails on its first call.  A failure of
    the constructor (empty identifier, no credential file) is answered with
    HTTP 500 and leaves [sheets_service] unbound and the world untouched,
    so the next call starts afresh.  Any other failure happens in
    [authenticate], after the object was bound: [sheets_service] then holds
    a gateway without spreadsheet handle. *)
Theorem get_sheets_service_failure_modes app :
  sheets_service app = None ->
  (Config.GOOGLE_SHEET_ID settings = "" ->
   get_sheets_service settings app
   = (Raise (HTTPException HTTP_500_INTERNAL_SERVER_ERROR
               "Failed to initialize Google Sheets service: Sheet ID cannot be empty"),
      app)) /\
  (Config.GOOGLE_SHEET_ID settings <> "" ->
   path_exists (world app)
     (resolve (world app) (Config.GOOGLE_CREDENTIALS_PATH settings)) = false ->
   get_sheets_service settings app
   = (Raise (HTTPException HTTP_500_INTERNAL_SERVER_ERROR
               ("Failed to initialize Google Sheets service: "
                ++ ("Credentials file not found: "
                    ++ resolve (world app)
                         (Config.GOOGLE_CREDENTIALS_PATH settings)))),
      app)) /\
  (forall e app',
     get_sheets_service settings app = (Raise e, app') ->
     app' = app \/
     exists g,
       sheets_service app' = Some g /\ Sheets.spreadsheet g = None).
Proof.
  destruct app as [svc w]. cbn [sheets_service world]. intros ->.
  unfold get_sheets_service, Config.get_credentials_path, Sheets.init.
  cbv beta iota zeta delta
    [bind ret raise try_except get put in_world set_sheets_service
     sheets_service world].
  destruct (String.eqb_spec (Config.GOOGLE_SHEET_ID settings) "")
    as [Hid|Hid].
  { split; [reflexivity|]. split; [congruence|].
    intros e app' E. injection E as <- <-. now left. }
  split; [congruence|].
  destruct (path_exists w (resolve w _)); cbn [negb].
  - split; [discriminate|].
    cbv beta iota zeta delta [on_service sheets_service world].
    match goal with
    | |- context [Sheets.authenticate (?g0, w)] =>
        destruct (SheetsFacts.authenticate_run g0 w)
          as (res & g' & w' & done & rest & E & _ & _ & _ & _ & _ & _ & M);
        rewrite E
    end.
    intros e app'. destruct res as [[]|e0]; [discriminate|].
    intros H. injection H as <- <-. right. exists g'.
    split; [reflexivity|]. apply M.
  - split; [reflexivity|].
    intros e app' E. injection E as <- <-. now left.
Qed.

(** ** A connected instance *)

(** On a gateway that holds a client, [calculate_interest] does not
    connect: its events are an initial part of the workflow and the
    gateway is unchanged. *)
Lemma calculate_interest_on_client g w c p r t :
  Sheets.client g = Some c ->
  exists res w' done rest,
    Sheets.calculate_interest p r t (g, w) = (res, (g, w')) /\
    log w' = (log w ++ done)%list /\
    (done ++ rest)%list = workflow p r t /\
    match res with
    | Return _ => True
    | Raise e => exists msg, e = Exception msg
    end.
Proof.
  intros Hc. unfold Sheets.calculate_interest.
  unfold bind at 1 2. unfold Sheets.self at 1. cbn [fst]. rewrite Hc.
  unfold ret at 1.
  destruct (SheetsFacts.write_then_read_run g w p r t)
    as (res & g' & w' & done & rest & E & L & P & _ & -> & M).
  unfold bind in E |- *. rewrite E.
  exists res, w', done, rest. repeat split; try assumption.
  destruct res; [exact I|exact M].
Qed.

Lemma no_connect_in_workflow_prefix done rest p r t :
  (done ++ rest)%list = workflow p r t ->
  existsb is_connect done = false.
Proof.
  intros H.
  assert (E : existsb is_connect (done ++ rest) = false)
    by (rewrite H; reflexivity).
  rewrite existsb_app in E. now apply orb_false_iff in E.
Qed.

(** X15.  Once [sheets_service] is bound to a gateway that holds a client,
    a request to [POST /calculate] never connects again and never rebinds
    or changes the gateway: what it does to the world is an initial part
    of write, wait, read, and [sheets_service] is the same afterwards. *)
Theorem calculate_reuses_connection request app g c :
  sheets_service app = Some g ->
  Sheets.client g = Some c ->
  exists resp w' done rest,
    post_calculate settings request app
    = (resp, {| sheets_service := Some g; world := w' |}) /\
    log w' = (log (world app) ++ done)%list /\
    (done ++ rest)%list
    = workflow (Models.principal request) (Models.rate request)
               (Models.time request) /\
    existsb is_connect done = false.
Proof.
  intros Hg Hc.
  destruct (calculate_interest_on_client
              g (world app) c (Models.principal request)
              (Models.rate request) (Models.time request) Hc)
    as (res & w' & done & rest & E & L & P & M).
  unfold post_calculate, calculate_interest, try_except, bind.
  rewrite (MainFacts.get_sheets_service_bound settings app g Hg).
  unfold on_service. rewrite Hg, E.
  destruct res as [results|e].
  - eexists _, w', done, rest. split; [reflexivity|].
    split; [exact L|]. split; [exact P|].
    exact (no_connect_in_workflow_prefix _ _ _ _ _ P).
  - destruct M as (msg & ->).
    eexists _, w', done, rest. split; [reflexivity|].
    split; [exact L|]. split; [exact P|].
    exact (no_connect_in_workflow_prefix _ _ _ _ _ P).
Qed.

(** ** The structure check behind the endpoints *)

(** The structure check run on the shared instance. *)
Lemma on_service_verify_run app g :
  sheets_service app = Some g ->
  exists res w',
    on_service Sheets.verify_sheet_structure app
    = (res, {| sheets_service := Some g; world := w' |}) /\
    entered w' = entered (world app) /\
    titles w' = titles (world app) /\
    match res with
    | Return (true, msg) =>
        Sheets.spreadsheet g <> None /\
        missing_from (titles (world app)) = [] /\
        msg = "Sheet structure verified successfully"
    | Return (false, msg) =>
        (Sheets.spreadsheet g = None /\ msg = "Not authenticated" /\
         w' = world app) \/
        (Sheets.spreadsheet g <> None /\
         missing_from (titles (world app)) <> [] /\
         msg = "Missing required sheets: "
               ++ Py.join ", " (missing_from (titles (world app))))
    | Raise e => exists msg, e = APIError msg
    end.
Proof.
  intros Hg. unfold on_service. rewrite Hg.
  destruct (SheetsMore.verify_run g (world app))
    as (res & w' & E & F & En & M).
  rewrite E. exists res, w'. split; [reflexivity|].
  split; [exact En|]. split; [apply F|].
  destruct res as [[[] msg]|e].
  - destruct M as (A & B & C & _). repeat split; assumption.
  - destruct M as [(A & B & C)|(A & B & C & _)];
      [left|right]; repeat split; assumption.
  - destruct M as (_ & M & _). exact M.
Qed.

(** X13.  [health_check] never raises and never writes to the spreadsheet.
    It answers 200 with status "healthy" exactly when the shared gateway
    is connected and none of "Input", "Calc", "Output" is missing; every
    other case, a failure of [get_sheets_service] or of the listing call
    included, is answered 503 with status "unhealthy" and a detail. *)
Theorem health_check_answers_200_or_503 app :
  exists resp app',
    health_check settings app = (Return resp, app') /\
    entered (world app') = entered (world app) /\
    ((resp = {| status_code := 200;
                content := Object [("status", "healthy");
                                   ("version", "1.0.0")] |} /\
      exists g,
        sheets_service app' = Some g /\ connected g = true /\
        missing_from (titles (world app')) = []) \/
     (exists detail,
        resp = {| status_code := 503;
                  content := Object [("status", "unhealthy");
                                     ("version", "1.0.0");
                                     ("detail", detail)] |})).
Proof.
  assert (Bound : forall o app0 g,
             sheets_service app0 = Some g ->
             entered (world app0) = entered (world app) ->
             get_sheets_service settings app = (Return o, app0) ->
             exists resp app',
               health_check settings app = (Return resp, app') /\
               entered (world app') = entered (world app) /\
               ((resp = {| status_code := 200;
                           content := Object [("status", "healthy");
                                              ("version", "1.0.0")] |} /\
                 exists g,
                   sheets_service app' = Some g /\
                   connected g = true /\
                   missing_from (titles (world app')) = []) \/
                (exists detail,
                   resp = {| status_code := 503;
                             content := Object [("status", "unhealthy");
                                                ("version", "1.0.0");
                                                ("detail", detail)] |}))).
  { intros o app0 g Hg En0 E0.
    destruct (on_service_verify_run app0 g Hg)
      as (res & w' & E & En & Ti & M).
    unfold health_check, try_except, bind. rewrite E0, E.
    destruct res as [[[] msg]|e]; cbn [negb].
    - eexists _, _. split; [reflexivity|]. cbn [world sheets_service].
      split; [congruence|]. left. split; [reflexivity|].
      exists g. destruct M as (A & B & _).
      split; [reflexivity|].
      split; [unfold connected; now destruct (Sheets.spreadsheet g)|].
      now rewrite Ti.
    - eexists _, _. split; [reflexivity|]. cbn [world].
      split; [congruence|]. right. eexists. reflexivity.
    - eexists _, _. split; [reflexivity|]. cbn [world].
      split; [congruence|]. right. eexists. reflexivity. }
  destruct (sheets_service app) as [g|] eqn:Hsvc.
  - apply (Bound (Some g) app g Hsvc eq_refl).
    now apply MainFacts.get_sheets_service_bound.
  - destruct (MainFacts.get_sheets_service_unbound settings app Hsvc)
      as (res0 & app0 & E0 & _ & En0 & M0).
    destruct res0 as [o|e0].
    + destruct M0 as (g & _ & Hg & _). now apply (Bound o app0 g Hg En0).
    + unfold health_check, try_except, bind. rewrite E0.
      eexists _, _. split; [reflexivity|].
      split; [exact En0|]. right. eexists. reflexivity.
Qed.

(** X14.  [GET /verify] on a bound gateway.  It answers 200 when the
    structure is complete; 400 with the message of the check as "error"
    when sheets are missing and also when the gateway has no spreadsheet
    handle ("Not authenticated", with no call to the service); 500 with
    the transport's message when the listing call fails.  It never
    writes, and it leaves [sheets_service] as it is. *)
Theorem get_verify_on_bound_gateway app g :
  sheets_service app = Some g ->
  exists resp w',
    get_verify settings app
    = (resp, {| sheets_service := Some g; world := w' |}) /\
    entered w' = entered (world app) /\
    ((resp = {| status_code := 200;
                content := Object
                             [("status", "success");
                              ("message",
                               "Sheet structure verified successfully")] |} /\
      Sheets.spreadsheet g <> None /\
      missing_from (titles (world app)) = []) \/
     (resp = {| status_code := 400;
                content := Object [("error", "Not authenticated")] |} /\
      Sheets.spreadsheet g = None /\ w' = world app) \/
     (resp = {| status_code := 400;
                content := Object
                             [("error",
                               "Missing required sheets: "
                               ++ Py.join ", "
                                    (missing_from (titles (world app))))] |} /\
      Sheets.spreadsheet g <> None /\
      missing_from (titles (world app)) <> []) \/
     (exists msg,
        resp = {| status_code := 500;
                  content := Object [("error", msg)] |} /\
        Sheets.spreadsheet g <> None /\
        exists fs, faults (world app) = Some msg :: fs)).
Proof.
  intros Hg.
  unfold get_verify, verify_sheet, try_except, bind.
  rewrite (MainFacts.get_sheets_service_bound settings app g Hg).
  unfold on_service. rewrite Hg.
  destruct (Sheets.spreadsheet g) as [ss|] eqn:Hss.
  - destruct (faults (world app)) as [|[m|] fs] eqn:Hf.
    + assert (Hc : calm 1 (world app) = true)
        by (unfold calm; now rewrite Hf).
      rewrite (SheetsFacts.verify_with_handle g (world app) ss Hss Hc).
      destruct (missing_from (titles (world app))) eqn:Hm.
      * eexists _, _. split; [reflexivity|]. split; [reflexivity|].
        left. repeat split; discriminate.
      * eexists _, _. split; [reflexivity|]. split; [reflexivity|].
        right; right; left. repeat split; discriminate.
    + destruct (SheetsMore.verify_with_fault g (world app) ss m fs Hss Hf)
        as (w' & E & En & _).
      rewrite E.
      eexists _, _. split; [reflexivity|]. split; [exact En|].
      right; right; right. exists m. split; [reflexivity|].
      split; [discriminate|]. now exists fs.
    + assert (Hc : calm 1 (world app) = true)
        by (unfold calm; now rewrite Hf).
      rewrite (SheetsFacts.verify_with_handle g (world app) ss Hss Hc).
      destruct (missing_from (titles (world app))) eqn:Hm.
      * eexists _, _. split; [reflexivity|]. split; [reflexivity|].
        left. repeat split; discriminate.
      * eexists _, _. split; [reflexivity|]. split; [reflexivity|].
        right; right; left. repeat split; discriminate.
  - rewrite (SheetsFacts.verify_without_handle g (world app) Hss).
    eexists _, _. split; [reflexivity|]. split; [reflexivity|].
    right; left. repeat split.
Qed.

End WithSettings.

Lemma calculate_reuses_connection_witness :
  exists resp w' done rest,
    post_calculate Demo.settings Demo.request
      {| sheets_service := Some Demo.connected; world := Demo.world |}
    = (resp, {| sheets_service := Some Demo.connected; world := w' |}) /\
    log w' = (log Demo.world ++ done)%list /\
    (done ++ rest)%list
    = workflow (Py.of_Z 10000) (Py.Fin (11 # 2)) (Py.of_Z 3) /\
    existsb is_connect done = false.
Proof.
  exact (calculate_reuses_connection Demo.settings Demo.request
           {| sheets_service := Some Demo.connected; world := Demo.world |}
           Demo.connected _ eq_refl eq_refl).
Defined.

(** After a failed open, [GET /verify] keeps answering 400. *)
Lemma get_verify_on_bound_gateway_witness :
  exists resp w',
    get_verify Demo.settings
      (snd (get_sheets_service Demo.settings (start Demo.unshared)))
    = (resp, w') /\
    status_code resp = 400 /\
    content resp = Object [("error", "Not authenticated")].
Proof.
  pose (app1 := snd (get_sheets_service Demo.settings (start Demo.unshared))).
  assert (Hg : sheets_service app1
               = Some {| Sheets.credentials_path :=
                           "/srv/app/credentials.json";
                         Sheets.sheet_id := "sheet-123";
                         Sheets.client :=
                           Some (MkClient
                                   (MkCredentials
                                      "/srv/app/credentials.json"));
                         Sheets.spreadsheet := None |})
    by (vm_compute; reflexivity).
  destruct (get_verify_on_bound_gateway Demo.settings app1 _ Hg)
    as (resp & w' & E & _ & [(_ & H & _)|[(-> & _)|[(_ & H & _)|(m & _ & H & _)]]]).
  - exfalso. now apply H.
  - eexists _, _. split; [exact E|]. split; reflexivity.
  - exfalso. now apply H.
  - exfalso. now apply H.
Defined.

Lemma lifespan_fails_fast_witness :
  lifespan Demo.settings_without_id (start Demo.world)
  = (Raise (ValueError "GOOGLE_SHEET_ID environment variable is not set"),
     start Demo.world) /\
  lifespan Demo.settings_without_file (start Demo.world)
  = (Raise (ValueError "Google credentials file not found at: missing.json"),
     start Demo.world).
Proof.
  split.
  - apply (proj1 (lifespan_fails_fast Demo.settings_without_id Demo.world)).
    reflexivity.
  - apply (proj1 (proj2 (lifespan_fails_fast
                           Demo.settings_without_file Demo.world)));
      [discriminate|reflexivity].
Defined.

Lemma get_sheets_service_failure_modes_witness :
  get_sheets_service Demo.settings_without_id (start Demo.world)
  = (Raise (HTTPException HTTP_500_INTERNAL_SERVER_ERROR
              "Failed to initialize Google Sheets service: Sheet ID cannot be empty"),
     start Demo.world) /\
  exists g,
    sheets_service
      (snd (get_sheets_service Demo.settings (start Demo.unshared)))
    = Some g /\ Sheets.spreadsheet g = None.
Proof.
  split.
  - apply (proj1 (get_sheets_service_failure_modes
                    Demo.settings_without_id (start Demo.world) eq_refl)).
    reflexivity.
  - destruct (proj2 (proj2 (get_sheets_service_failure_modes
                              Demo.settings (start Demo.unshared) eq_refl))
                (HTTPException HTTP_500_INTERNAL_SERVER_ERROR
                   ("Failed to initialize Google Sheets service: "
                    ++ ("Spreadsheet not found. Check if:" ++ Sheets.nl
                        ++ "1. Sheet ID is correct: sheet-123" ++ Sheets.nl
                        ++ "2. Sheet is shared with service account email")))
                (snd (get_sheets_service Demo.settings
                        (start Demo.unshared))))
      as [Hsame|Hbound].
    + vm_compute. reflexivity.
    + exfalso. apply (f_equal sheets_service) in Hsame.
      vm_compute in Hsame. discriminate Hsame.
    + exact Hbound.
Defined.

End MainMore.
